(** * Welcome seeding of the modern Programs UI

    A shallow embedding of [offline_chatbot_programs_modern_ui.py]: the seed
    resolver [_resolve_seed_from_args_env], the constructor of
    [ProgramsModernUI], the overlay-dismissal hook [_hide_frontpage], the
    readiness check [_try_fire_welcome_seed], and the two functions
    [_start_seeding] and [_seed_worker] together with the callbacks they hand
    to Tk's [after].

    Python objects are modelled by what the code reads and writes of them:
    text is a list of Unicode code points, an attribute that may be missing
    is an [option], a call that may raise returns a [result], and the Tk event
    loop is a queue of timers ordered by due time. *)

From Stdlib Require Import ZArith Ascii String Bool Lia.
From stdpp Require Import base option list gmap.

Local Open Scope Z_scope.

(* ===================================================================== *)
(** * Python values *)
(* ===================================================================== *)

(** A [str] is a sequence of Unicode code points. *)
Abbreviation pystr := (list N).

(** An ASCII literal of the source as a [str]. *)
Definition py (s : string) : pystr :=
  map N_of_ascii (list_ascii_of_string s).

(** The line feed, written ["\n"] in the source. *)
Definition LF : pystr := [10%N].

(** The em dash that frames the system notices of the constructor. *)
Definition EM_DASH : pystr := [8212%N].

(** [str.isspace] on one code point: the characters [str.strip()] removes
    when it is called without an argument. *)
Definition isspace (c : N) : bool :=
  ((9 <=? c) && (c <=? 13) || (28 <=? c) && (c <=? 32)
   || (c =? 133) || (c =? 160) || (c =? 5760)
   || (8192 <=? c) && (c <=? 8202)
   || (c =? 8232) || (c =? 8233) || (c =? 8239) || (c =? 8287)
   || (c =? 12288))%N.

Fixpoint lstrip (s : pystr) : pystr :=
  match s with
  | c :: s' => if isspace c then lstrip s' else s
  | [] => []
  end.

Definition rstrip (s : pystr) : pystr := rev (lstrip (rev s)).

(** [s.strip()] *)
Definition strip (s : pystr) : pystr := rstrip (lstrip s).

(** Truth value of an [Optional[str]]: [None] and [""] are false. *)
Definition truthy (o : option pystr) : bool :=
  match o with
  | Some (_ :: _) => true
  | _ => false
  end.

(** [o or d] for an [Optional[str]]. *)
Definition or_else (o : option pystr) (d : pystr) : pystr :=
  match o with
  | Some (c :: s) => c :: s
  | _ => d
  end.

(** Truth value of a flag read with [getattr(self, name, False)]. *)
Definition flag (o : option bool) : bool := default false o.

(** An exception (an instance of a subclass of [Exception]): its class and
    the text [str(e)] gives. *)
Record exn := Exn { exn_class : string; exn_msg : pystr }.

Inductive result (A : Type) : Type :=
| Ok (a : A)
| Raise (e : exn).
Arguments Ok {A} a.
Arguments Raise {A} e.

Definition AttributeError (name : string) : exn :=
  Exn "AttributeError" (py name).
Definition NameError (name : string) : exn := Exn "NameError" (py name).
Definition TclError : exn := Exn "TclError" (py "application has been destroyed").
Definition RuntimeError (msg : string) : exn := Exn "RuntimeError" (py msg).

(* ===================================================================== *)
(** * The seed resolver *)
(* ===================================================================== *)

(** The parsed command line, as [_build_arg_parser] produces it. *)
Record Args := {
  seed_prompt : option pystr;   (* --seed-prompt TEXT *)
  seed_file : option pystr;     (* --seed-file PATH *)
  seed_env : option pystr;      (* --seed-env NAME *)
  seed_delay : Z;               (* --seed-delay MS, default 250 *)
  show_seed : bool;             (* --show-seed *)
  skip_seed : bool              (* --skip-seed *)
}.

(** What a path names. A path that is not a key of the file system does not
    exist. *)
Inductive fentry :=
| Entry (read_text : result pystr)
    (* [p.exists()] is true; [p.read_text(encoding="utf-8")] gives the text
       or raises (OSError, UnicodeDecodeError) *)
| NoStat (e : exn).
    (* [p.exists()] itself raises, as on a permission error *)

(** The process environment the resolver reads. *)
Record World := {
  fs : gmap pystr fentry;
  environ : gmap pystr pystr
}.

(** [logger.exception("Failed to read seed file: %s", e)] *)
Definition log_read_failure (e : exn) : pystr :=
  py "Failed to read seed file: " ++ exn_msg e.

(** The [try] block of the file step: [Ok (Some txt)] is the [return] inside
    it, [Ok None] falls out of the [if p.exists()], [Raise e] goes to the
    handler. *)
Definition read_seed_file (w : World) (path : pystr) : result (option pystr) :=
  match fs w !! path with
  | None => Ok None
  | Some (Entry (Ok txt)) => Ok (Some txt)
  | Some (Entry (Raise e)) => Raise e
  | Some (NoStat e) => Raise e
  end.

(** [getattr(args, "seed_env", None) or "CHATBOT_SEED_PROMPT"] *)
Definition env_name (a : Args) : pystr :=
  or_else (seed_env a) (py "CHATBOT_SEED_PROMPT").

(** The last step: [os.getenv(env_name)], returned when it is non-empty. *)
Definition from_env (w : World) (a : Args) : option pystr :=
  match environ w !! env_name a with
  | Some (c :: v) => Some (c :: v)
  | _ => None
  end.

(** [_resolve_seed_from_args_env(args)]: the records logged and the value
    returned. *)
Definition _resolve_seed_from_args_env (w : World) (a : Args)
  : list pystr * option pystr :=
  if skip_seed a then ([], None)
  else if truthy (seed_prompt a) then ([], seed_prompt a)
  else
    let file_step :=
      match seed_file a with
      | Some (c :: p) =>
          match read_seed_file w (c :: p) with
          | Ok r => ([], r)
          | Raise e => ([log_read_failure e], None)
          end
      | _ => ([], None)
      end in
    match file_step with
    | (lg, Some txt) => (lg, Some txt)
    | (lg, None) => (lg, from_env w a)
    end.

(** The file step produces no text: no path, an empty path, or a path that
    does not name a readable file. *)
Definition file_yields_nothing (w : World) (a : Args) : Prop :=
  match seed_file a with
  | Some (c :: p) => ∀ txt, fs w !! (c :: p) ≠ Some (Entry (Ok txt))
  | _ => True
  end.

(* ===================================================================== *)
(** * The window *)
(* ===================================================================== *)

(** The [state] option of the send button. *)
Inductive btn_state := normal | disabled.

(** The frontpage overlay, by what [winfo_manager()] answers: the name of
    its geometry manager ([""] once it is forgotten), or an exception. *)
Inductive overlay :=
| Widget (manager : pystr)
| Broken (e : exn).

(** What the code hands to [self.after]. *)
Inductive callback :=
| skin_cb                        (* self._skin_legacy_chat_widgets *)
| try_fire_cb                    (* self._try_fire_welcome_seed *)
| append_cb (text tag : pystr)   (* self._append, text, tag *)
| err_cb (frame : nat)           (* the closure [err] of a worker frame *)
| done_cb.                       (* the closure [done] *)

(** The application object and what surrounds it. An attribute that
    [getattr] reads with a default is an [option]. [fired] is a ghost
    counter: how often [_try_fire_welcome_seed] reached the call
    [self._start_seeding()]. *)
Record UI := mkUI {
  _seed_text : option pystr;
  _seed_delay_ms : option Z;
  _show_seed : option bool;
  _pending_welcome_seed : option bool;
  streaming : option bool;
  _frontpage : option overlay;
  send_btn : option btn_state;
  transcript : list (pystr * pystr);   (* text and tag, in order *)
  alive : bool;                        (* the Tk application is not destroyed *)
  clock : Z;                           (* milliseconds *)
  timers : list (Z * callback);        (* due time and callback, by due time *)
  dialogs : list (pystr * pystr);      (* title and message of error boxes *)
  reported : list exn;                 (* exceptions that left a callback *)
  spawnable : bool;                    (* the system can start a thread *)
  threads : list pystr;                (* argument of each started worker *)
  frames : gmap nat exn;               (* the cell [e] of a worker frame *)
  log : list pystr;                    (* records of the module's logger *)
  fired : nat
}.

Definition set_seed_text (v : option pystr) (u : UI) : UI :=
  {| _seed_text := v; _seed_delay_ms := _seed_delay_ms u;
     _show_seed := _show_seed u;
     _pending_welcome_seed := _pending_welcome_seed u;
     streaming := streaming u; _frontpage := _frontpage u;
     send_btn := send_btn u; transcript := transcript u; alive := alive u;
     clock := clock u; timers := timers u; dialogs := dialogs u;
     reported := reported u; spawnable := spawnable u; threads := threads u;
     frames := frames u; log := log u; fired := fired u |}.

Definition set_seed_delay_ms (v : option Z) (u : UI) : UI :=
  {| _seed_text := _seed_text u; _seed_delay_ms := v;
     _show_seed := _show_seed u;
     _pending_welcome_seed := _pending_welcome_seed u;
     streaming := streaming u; _frontpage := _frontpage u;
     send_btn := send_btn u; transcript := transcript u; alive := alive u;
     clock := clock u; timers := timers u; dialogs := dialogs u;
     reported := reported u; spawnable := spawnable u; threads := threads u;
     frames := frames u; log := log u; fired := fired u |}.

Definition set_show_seed (v : option bool) (u : UI) : UI :=
  {| _seed_text := _seed_text u; _seed_delay_ms := _seed_delay_ms u;
     _show_seed := v; _pending_welcome_seed := _pending_welcome_seed u;
     streaming := streaming u; _frontpage := _frontpage u;
     send_btn := send_btn u; transcript := transcript u; alive := alive u;
     clock := clock u; timers := timers u; dialogs := dialogs u;
     reported := reported u; spawnable := spawnable u; threads := threads u;
     frames := frames u; log := log u; fired := fired u |}.

Definition set_pending_welcome_seed (v : option bool) (u : UI) : UI :=
  {| _seed_text := _seed_text u; _seed_delay_ms := _seed_delay_ms u;
     _show_seed := _show_seed u; _pending_welcome_seed := v;
     streaming := streaming u; _frontpage := _frontpage u;
     send_btn := send_btn u; transcript := transcript u; alive := alive u;
     clock := clock u; timers := timers u; dialogs := dialogs u;
     reported := reported u; spawnable := spawnable u; threads := threads u;
     frames := frames u; log := log u; fired := fired u |}.

Definition set_streaming (v : option bool) (u : UI) : UI :=
  {| _seed_text := _seed_text u; _seed_delay_ms := _seed_delay_ms u;
     _show_seed := _show_seed u;
     _pending_welcome_seed := _pending_welcome_seed u; streaming := v;
     _frontpage := _frontpage u; send_btn := send_btn u;
     transcript := transcript u; alive := alive u; clock := clock u;
     timers := timers u; dialogs := dialogs u; reported := reported u;
     spawnable := spawnable u; threads := threads u; frames := frames u;
     log := log u; fired := fired u |}.

Definition set_frontpage (v : option overlay) (u : UI) : UI :=
  {| _seed_text := _seed_text u; _seed_delay_ms := _seed_delay_ms u;
     _show_seed := _show_seed u;
     _pending_welcome_seed := _pending_welcome_seed u;
     streaming := streaming u; _frontpage := v; send_btn := send_btn u;
     transcript := transcript u; alive := alive u; clock := clock u;
     timers := timers u; dialogs := dialogs u; reported := reported u;
     spawnable := spawnable u; threads := threads u; frames := frames u;
     log := log u; fired := fired u |}.

Definition set_send_btn (v : option btn_state) (u : UI) : UI :=
  {| _seed_text := _seed_text u; _seed_delay_ms := _seed_delay_ms u;
     _show_seed := _show_seed u;
     _pending_welcome_seed := _pending_welcome_seed u;
     streaming := streaming u; _frontpage := _frontpage u; send_btn := v;
     transcript := transcript u; alive := alive u; clock := clock u;
     timers := timers u; dialogs := dialogs u; reported := reported u;
     spawnable := spawnable u; threads := threads u; frames := frames u;
     log := log u; fired := fired u |}.

Definition set_transcript (v : list (pystr * pystr)) (u : UI) : UI :=
  {| _seed_text := _seed_text u; _seed_delay_ms := _seed_delay_ms u;
     _show_seed := _show_seed u;
     _pending_welcome_seed := _pending_welcome_seed u;
     streaming := streaming u; _frontpage := _frontpage u;
     send_btn := send_btn u; transcript := v; alive := alive u;
     clock := clock u; timers := timers u; dialogs := dialogs u;
     reported := reported u; spawnable := spawnable u; threads := threads u;
     frames := frames u; log := log u; fired := fired u |}.

Definition set_clock (v : Z) (u : UI) : UI :=
  {| _seed_text := _seed_text u; _seed_delay_ms := _seed_delay_ms u;
     _show_seed := _show_seed u;
     _pending_welcome_seed := _pending_welcome_seed u;
     streaming := streaming u; _frontpage := _frontpage u;
     send_btn := send_btn u; transcript := transcript u; alive := alive u;
     clock := v; timers := timers u; dialogs := dialogs u;
     reported := reported u; spawnable := spawnable u; threads := threads u;
     frames := frames u; log := log u; fired := fired u |}.

Definition set_timers (v : list (Z * callback)) (u : UI) : UI :=
  {| _seed_text := _seed_text u; _seed_delay_ms := _seed_delay_ms u;
     _show_seed := _show_seed u;
     _pending_welcome_seed := _pending_welcome_seed u;
     streaming := streaming u; _frontpage := _frontpage u;
     send_btn := send_btn u; transcript := transcript u; alive := alive u;
     clock := clock u; timers := v; dialogs := dialogs u;
     reported := reported u; spawnable := spawnable u; threads := threads u;
     frames := frames u; log := log u; fired := fired u |}.

Definition set_dialogs (v : list (pystr * pystr)) (u : UI) : UI :=
  {| _seed_text := _seed_text u; _seed_delay_ms := _seed_delay_ms u;
     _show_seed := _show_seed u;
     _pending_welcome_seed := _pending_welcome_seed u;
     streaming := streaming u; _frontpage := _frontpage u;
     send_btn := send_btn u; transcript := transcript u; alive := alive u;
     clock := clock u; timers := timers u; dialogs := v;
     reported := reported u; spawnable := spawnable u; threads := threads u;
     frames := frames u; log := log u; fired := fired u |}.

Definition set_reported (v : list exn) (u : UI) : UI :=
  {| _seed_text := _seed_text u; _seed_delay_ms := _seed_delay_ms u;
     _show_seed := _show_seed u;
     _pending_welcome_seed := _pending_welcome_seed u;
     streaming := streaming u; _frontpage := _frontpage u;
     send_btn := send_btn u; transcript := transcript u; alive := alive u;
     clock := clock u; timers := timers u; dialogs := dialogs u;
     reported := v; spawnable := spawnable u; threads := threads u;
     frames := frames u; log := log u; fired := fired u |}.

Definition set_threads (v : list pystr) (u : UI) : UI :=
  {| _seed_text := _seed_text u; _seed_delay_ms := _seed_delay_ms u;
     _show_seed := _show_seed u;
     _pending_welcome_seed := _pending_welcome_seed u;
     streaming := streaming u; _frontpage := _frontpage u;
     send_btn := send_btn u; transcript := transcript u; alive := alive u;
     clock := clock u; timers := timers u; dialogs := dialogs u;
     reported := reported u; spawnable := spawnable u; threads := v;
     frames := frames u; log := log u; fired := fired u |}.

Definition set_frames (v : gmap nat exn) (u : UI) : UI :=
  {| _seed_text := _seed_text u; _seed_delay_ms := _seed_delay_ms u;
     _show_seed := _show_seed u;
     _pending_welcome_seed := _pending_welcome_seed u;
     streaming := streaming u; _frontpage := _frontpage u;
     send_btn := send_btn u; transcript := transcript u; alive := alive u;
     clock := clock u; timers := timers u; dialogs := dialogs u;
     reported := reported u; spawnable := spawnable u; threads := threads u;
     frames := v; log := log u; fired := fired u |}.

Definition set_log (v : list pystr) (u : UI) : UI :=
  {| _seed_text := _seed_text u; _seed_delay_ms := _seed_delay_ms u;
     _show_seed := _show_seed u;
     _pending_welcome_seed := _pending_welcome_seed u;
     streaming := streaming u; _frontpage := _frontpage u;
     send_btn := send_btn u; transcript := transcript u; alive := alive u;
     clock := clock u; timers := timers u; dialogs := dialogs u;
     reported := reported u; spawnable := spawnable u; threads := threads u;
     frames := frames u; log := v; fired := fired u |}.

Definition set_fired (v : nat) (u : UI) : UI :=
  {| _seed_text := _seed_text u; _seed_delay_ms := _seed_delay_ms u;
     _show_seed := _show_seed u;
     _pending_welcome_seed := _pending_welcome_seed u;
     streaming := streaming u; _frontpage := _frontpage u;
     send_btn := send_btn u; transcript := transcript u; alive := alive u;
     clock := clock u; timers := timers u; dialogs := dialogs u;
     reported := reported u; spawnable := spawnable u; threads := threads u;
     frames := frames u; log := log u; fired := v |}.
Definition set_spawnable (v : bool) (u : UI) : UI :=
  {| _seed_text := _seed_text u; _seed_delay_ms := _seed_delay_ms u;
     _show_seed := _show_seed u;
     _pending_welcome_seed := _pending_welcome_seed u;
     streaming := streaming u; _frontpage := _frontpage u;
     send_btn := send_btn u; transcript := transcript u; alive := alive u;
     clock := clock u; timers := timers u; dialogs := dialogs u;
     reported := reported u; spawnable := v; threads := threads u;
     frames := frames u; log := log u; fired := fired u |}.

(** ** Code that changes the window and may raise *)

Definition M (A : Type) : Type := UI → UI * result A.

Definition ret {A} (a : A) : M A := λ u, (u, Ok a).

Definition raise {A} (e : exn) : M A := λ u, (u, Raise e).

Definition bind {A B} (m : M A) (k : A → M B) : M B :=
  λ u, match m u with
       | (u', Ok a) => k a u'
       | (u', Raise e) => (u', Raise e)
       end.

(** [try: m except Exception as e: h e] *)
Definition try_except {A} (m : M A) (h : exn → M A) : M A :=
  λ u, match m u with
       | (u', Ok a) => (u', Ok a)
       | (u', Raise e) => h e u'
       end.

(** [try: m finally: f] *)
Definition try_finally {A} (m : M A) (f : M unit) : M A :=
  λ u, match m u with
       | (u', r) =>
           match f u' with
           | (u'', Ok _) => (u'', r)
           | (u'', Raise e) => (u'', Raise e)
           end
       end.

(** The object as it is now. *)
Definition self : M UI := λ u, (u, Ok u).

(** An assignment to an attribute, or another total update. *)
Definition assign (f : UI → UI) : M unit := λ u, (f u, Ok tt).

(** [except Exception: pass] *)
Definition pass : exn → M unit := λ _, ret tt.

Declare Scope py_scope.
Delimit Scope py_scope with py.
Notation "x ← m ; k" := (bind m (λ x, k))
  (at level 20, m at level 100, k at level 200, only parsing) : py_scope.
Notation "m ;; k" := (bind m (λ _, k))
  (at level 100, k at level 200, only parsing, right associativity)
  : py_scope.
Local Open Scope py_scope.

(** ** Tk and the base class *)

(** A timer goes behind every timer that is due no later. *)
Fixpoint insert_timer (t : Z * callback) (q : list (Z * callback))
  : list (Z * callback) :=
  match q with
  | [] => [t]
  | x :: q' => if t.1 <? x.1 then t :: x :: q' else x :: insert_timer t q'
  end.

(** [self.after(ms, cb)] *)
Definition after (ms : Z) (cb : callback) : M unit :=
  λ u, if alive u
       then (set_timers (insert_timer (clock u + ms, cb) (timers u)) u, Ok tt)
       else (u, Raise TclError).

(** Modelled from the spec: the base class method [_append(text, tag)],
    which appends the text to the transcript under a style tag; as a Tk
    operation it raises once the application is destroyed. *)
Definition _append (text tag : pystr) : M unit :=
  λ u, if alive u
       then (set_transcript (transcript u ++ [(text, tag)]) u, Ok tt)
       else (u, Raise TclError).

(** [self.send_btn.config(state=s)] *)
Definition send_btn_config (s : btn_state) : M unit :=
  λ u, match send_btn u with
       | None => (u, Raise (AttributeError "send_btn"))
       | Some _ => if alive u then (set_send_btn (Some s) u, Ok tt)
                   else (u, Raise TclError)
       end.

(** [messagebox.showerror(title, message)] *)
Definition showerror (title message : pystr) : M unit :=
  λ u, if alive u
       then (set_dialogs (dialogs u ++ [(title, message)]) u, Ok tt)
       else (u, Raise TclError).

(** [front.winfo_manager()] *)
Definition winfo_manager (front : overlay) : M pystr :=
  match front with
  | Widget m => ret m
  | Broken e => raise e
  end.

(** Modelled from the spec: the base class hook [_hide_frontpage], which
    hides the launcher: the overlay is no longer managed afterwards. *)
Definition super_hide_frontpage : M unit :=
  λ u, match _frontpage u with
       | None => (u, Ok tt)
       | Some (Broken e) => (u, Raise e)
       | Some (Widget _) =>
           if alive u then (set_frontpage (Some (Widget [])) u, Ok tt)
           else (u, Raise TclError)
       end.

(** [logger.exception("Modern skinning failed: %s", e)] *)
Definition log_skin_failure (e : exn) : pystr :=
  py "Modern skinning failed: " ++ exn_msg e.

(** [_skin_legacy_chat_widgets]: the colours it sets are not part of the
    state; walking the widgets raises once the application is destroyed,
    which is logged. The two [def]s that end its body only bind local
    names, which are dropped when it returns. *)
Definition _skin_legacy_chat_widgets : M unit :=
  try_except
    (λ u, if alive u then (u, Ok tt) else (u, Raise TclError))
    (λ e, assign (λ u, set_log (log u ++ [log_skin_failure e]) u)).

(* ===================================================================== *)
(** * ProgramsModernUI *)
(* ===================================================================== *)

Section Program.

(** The builtin [int], on whatever values the constructor may be given. *)
Context {PyVal : Type}.
Variable py_int : PyVal → result Z.

(** The class body binds neither [_start_seeding] nor [_seed_worker]: both
    [def]s stand inside [_skin_legacy_chat_widgets]. What [self._start_seeding]
    and [self._seed_worker] find is therefore what the base classes bind
    these names to, if anything. *)
Variable base_start_seeding : option (M unit).
Variable base_seed_worker : bool.

(** Modelled from the spec: the backend's streaming entry point, by the
    tokens it produces for a prompt and the exception it ends with, if any. *)
Variable respond_stream : pystr → list pystr * option exn.

Definition NOTICE_SHOWING : pystr :=
  EM_DASH ++ py " Welcome seeding enabled (showing configured seed): "
    ++ EM_DASH ++ LF.

Definition NOTICE_ENABLED : pystr :=
  EM_DASH ++ py " Welcome seeding enabled. " ++ EM_DASH ++ LF.

Definition NOTICE_TIP : pystr :=
  EM_DASH ++ py " Tip: launch with --seed-prompt " ++ [34%N] ++ py "..."
    ++ [34%N]
    ++ py " or set env CHATBOT_SEED_PROMPT to auto-generate a welcome message. "
    ++ EM_DASH ++ LF.

(** [ProgramsModernUI.__init__], from the state [super().__init__()] leaves
    (the window title is not part of the state). *)
Definition __init__ (seed_text : option pystr) (show_seed : bool)
    (seed_delay_ms : PyVal) : M unit :=
  assign (set_seed_text (Some (strip (or_else seed_text []))));;
  assign (set_seed_delay_ms
            (Some match py_int seed_delay_ms with
                  | Ok n => Z.max 0 n
                  | Raise _ => 250
                  end));;
  assign (set_show_seed (Some show_seed));;
  try_except
    (u ← self;
     if truthy (_seed_text u) then
       (if flag (_show_seed u) then
          _append NOTICE_SHOWING (py "sys");;
          _append (or_else (_seed_text u) [] ++ LF) (py "sys")
        else
          _append NOTICE_ENABLED (py "sys"));;
       assign (set_pending_welcome_seed (Some true))
     else
       _append NOTICE_TIP (py "sys"))
    pass;;
  try_except (after 200 skin_cb) pass.

(** [_hide_frontpage] *)
Definition _hide_frontpage : M unit :=
  try_finally super_hide_frontpage
    (u ← self;
     if truthy (_seed_text u) then
       try_except (assign (set_pending_welcome_seed (Some true)))
                  (λ _, assign (set_pending_welcome_seed (Some true)));;
       try_except
         (after (Z.max 0 (default 250 (_seed_delay_ms u))) try_fire_cb)
         (λ _, after 300 try_fire_cb)
     else ret tt).

(** The overlay test of the readiness check. *)
Definition overlay_active : M bool :=
  try_except
    (u ← self;
     match _frontpage u with
     | Some front =>
         m ← winfo_manager front;
         ret (match m with [] => false | _ :: _ => true end)
     | None => ret false
     end)
    (λ _, ret false).

(** The call [self._start_seeding()]. *)
Definition call_start_seeding : M unit :=
  match base_start_seeding with
  | Some method => method
  | None => raise (AttributeError "_start_seeding")
  end.

(** [_try_fire_welcome_seed] *)
Definition _try_fire_welcome_seed : M unit :=
  u ← self;
  if negb (truthy (_seed_text u)) || negb (flag (_pending_welcome_seed u))
  then ret tt
  else
    active ← overlay_active;
    if active || flag (streaming u)
    then try_except (after 300 try_fire_cb) pass
    else
      assign (set_pending_welcome_seed (Some false));;
      assign (λ u, set_fired (S (fired u)) u);;
      call_start_seeding.

(** [threading.Thread(target=self._seed_worker, args=(text,),
    daemon=True).start()] *)
Definition thread_start (text : pystr) : M unit :=
  λ u, if negb base_seed_worker
       then (u, Raise (AttributeError "_seed_worker"))
       else if spawnable u
       then (set_threads (threads u ++ [text]) u, Ok tt)
       else (u, Raise (RuntimeError "can't start new thread")).

(** [_start_seeding], the first function local to
    [_skin_legacy_chat_widgets]. *)
Definition _start_seeding : M unit :=
  u ← self;
  if flag (streaming u) || negb (truthy (_seed_text u))
  then ret tt
  else
    try_except
      (_append (py "Bot: ") (py "bot");;
       assign (set_streaming (Some true));;
       try_except (send_btn_config disabled) pass;;
       thread_start (or_else (_seed_text u) []))
      pass.

(** [backend.respond_stream(text, on_token=...)]: the callback is called on
    each token in turn, then the call returns or raises. *)
Fixpoint stream (toks : list pystr) (fin : option exn)
    (on_token : pystr → M unit) : M unit :=
  match toks with
  | tok :: rest => on_token tok;; stream rest fin on_token
  | [] => match fin with
          | Some e => raise e
          | None => ret tt
          end
  end.

Definition ERROR_NOTICE : pystr :=
  LF ++ py "[Error: failed to generate welcome message]" ++ LF.

(** The closure [err]. Its free variable [e] is the cell of the worker frame:
    [except Exception as e] binds it and unbinds it again when the handler is
    left, and reading an unbound cell raises NameError. *)
Definition err (frame : nat) : M unit :=
  _append ERROR_NOTICE (py "sys");;
  try_except
    (u ← self;
     match frames u !! frame with
     | Some e => showerror (py "Welcome Error") (exn_msg e)
     | None => raise (NameError "e")
     end)
    pass.

(** The closure [done]. *)
Definition done : M unit :=
  _append LF (py "bot");;
  assign (set_streaming (Some false));;
  try_except (send_btn_config normal) pass.

(** [_seed_worker], the second function local to
    [_skin_legacy_chat_widgets], run in the frame [frame]. *)
Definition _seed_worker (frame : nat) (text : pystr) : M unit :=
  try_finally
    (try_except
       (let '(toks, fin) := respond_stream text in
        stream toks fin (λ tok, after 0 (append_cb tok (py "bot"))))
       (λ e,
          assign (λ u, set_frames (<[frame := e]> (frames u)) u);;
          try_finally
            (after 0 (err_cb frame))
            (assign (λ u, set_frames (delete frame (frames u)) u))))
    (after 0 done_cb).

(** ** The event loop *)

Definition run_callback (cb : callback) : M unit :=
  match cb with
  | skin_cb => _skin_legacy_chat_widgets
  | try_fire_cb => _try_fire_welcome_seed
  | append_cb text tag => _append text tag
  | err_cb frame => err frame
  | done_cb => done
  end.

(** An exception that leaves a callback or a thread is reported, and the
    process goes on. *)
Definition report (r : UI * result unit) : UI :=
  match r with
  | (u, Ok _) => u
  | (u, Raise e) => set_reported (reported u ++ [e]) u
  end.

(** One turn of [mainloop]: the timer that is due first is taken off the
    queue and run at its due time, or later when the clock has passed it. *)
Definition mainloop_step (u : UI) : UI :=
  match timers u with
  | [] => u
  | (due, cb) :: rest =>
      report (run_callback cb (set_clock (Z.max (clock u) due)
                                 (set_timers rest u)))
  end.

(** What can happen to the window. *)
Inductive event :=
| Dismiss                (* [_hide_frontpage] is called *)
| Tick                   (* the event loop runs the next timer *)
| Recheck                (* [_try_fire_welcome_seed] is called directly *)
| Elapse (ms : Z)        (* time passes *)
| Stream (b : bool)      (* a chat generation starts or ends *)
| Show                   (* the launcher is put back on the window *)
| Work (frame : nat).    (* a started worker runs to its end *)

Definition step (ev : event) (u : UI) : UI :=
  match ev with
  | Dismiss => report (_hide_frontpage u)
  | Tick => mainloop_step u
  | Recheck => report (_try_fire_welcome_seed u)
  | Elapse ms => set_clock (clock u + Z.max 0 ms) u
  | Stream b => set_streaming (Some b) u
  | Show => set_frontpage (Some (Widget (py "place"))) u
  | Work frame =>
      match threads u !! frame with
      | Some text => report (_seed_worker frame text u)
      | None => u
      end
  end.

Definition run (evs : list event) (u : UI) : UI :=
  foldl (λ u ev, step ev u) u evs.

(** ** The worker next to the event loop *)

(** The worker runs on a thread of its own, so the event loop may take a turn
    between any two of its calls. Where the worker stands: *)
Inductive worker :=
| Streaming (toks : list pystr) (fin : option exn)
    (* inside [respond_stream], with these tokens and this end to come *)
| Handling (e : exn)       (* entering the handler: [e] is about to be bound *)
| Handled                  (* about to call [self.after(0, err)] *)
| Leaving (r : result unit)  (* leaving the handler: [e] is about to go *)
| Closing (r : result unit)  (* about to call [self.after(0, done)] *)
| Finished (r : result unit).

(** The worker as it starts on a text. *)
Definition worker_start (text : pystr) : worker :=
  let '(toks, fin) := respond_stream text in Streaming toks fin.

(** One call of [_seed_worker]. *)
Definition worker_step (frame : nat) (w : worker) (u : UI) : UI * worker :=
  match w with
  | Streaming (tok :: rest) fin =>
      match after 0 (append_cb tok (py "bot")) u with
      | (u', Ok _) => (u', Streaming rest fin)
      | (u', Raise e) => (u', Handling e)
      end
  | Streaming [] (Some e) => (u, Handling e)
  | Streaming [] None => (u, Closing (Ok tt))
  | Handling e => (set_frames (<[frame := e]> (frames u)) u, Handled)
  | Handled =>
      match after 0 (err_cb frame) u with
      | (u', r) => (u', Leaving r)
      end
  | Leaving r => (set_frames (delete frame (frames u)) u, Closing r)
  | Closing r =>
      match after 0 done_cb u with
      | (u', Ok _) => (u', Finished r)
      | (u', Raise e) => (u', Finished (Raise e))
      end
  | Finished r => (u, Finished r)
  end.

(** Whose turn it is. *)
Inductive turn := Worker | Loop.

Definition turn_step (frame : nat) (t : turn) (c : UI * worker)
  : UI * worker :=
  match t with
  | Worker => worker_step frame c.2 c.1
  | Loop => (mainloop_step c.1, c.2)
  end.

(** The window and one worker under a schedule. *)
Definition interleave (frame : nat) (sched : list turn) (c : UI * worker)
  : UI * worker :=
  foldl (λ c t, turn_step frame t c) c sched.

End Program.

(** ** Concrete instances *)

(** Values a caller may pass for [seed_delay_ms]. *)
Inductive pyval :=
| PyInt (z : Z)
| PyBool (b : bool)
| PyNone.

(** [int(v)] on these. *)
Definition builtin_int (v : pyval) : result Z :=
  match v with
  | PyInt z => Ok z
  | PyBool b => Ok (if b then 1 else 0)
  | PyNone => Raise (Exn "TypeError" (py "int() argument must be a string, a bytes-like object or a real number, not 'NoneType'"))
  end.

(** A window as the base constructor leaves it: launcher shown, nothing
    streaming, send button enabled, empty transcript. *)
Definition fresh : UI :=
  {| _seed_text := None; _seed_delay_ms := None; _show_seed := None;
     _pending_welcome_seed := None; streaming := Some false;
     _frontpage := Some (Widget (py "place")); send_btn := Some normal;
     transcript := []; alive := true; clock := 0; timers := [];
     dialogs := []; reported := []; spawnable := true; threads := [];
     frames := ∅; log := []; fired := 0 |}.

(* ===================================================================== *)
(** * Vocabulary of the statements *)
(* ===================================================================== *)

(** The overlay reports itself as mounted: it exists and names a geometry
    manager. *)
Definition overlay_visible (u : UI) : bool :=
  match _frontpage u with
  | Some (Widget (_ :: _)) => true
  | _ => false
  end.

(** A seed is configured and has not fired. *)
Definition armed (u : UI) : bool :=
  truthy (_seed_text u) && flag (_pending_welcome_seed u).

(** The readiness guard fails. *)
Definition blocked (u : UI) : bool :=
  overlay_visible u || flag (streaming u).

(** A recheck is put on the timer queue 300 ms from now, and nothing else
    changes. *)
Definition recheck_later (u : UI) : UI :=
  if armed u && alive u
  then set_timers (insert_timer (clock u + 300, try_fire_cb) (timers u)) u
  else u.

(** The event loop turns [n] times. *)
Definition ticks (n : nat) : list event := replicate n Tick.

(** A backend that produces the one token ["Hi"] and then fails. *)
Definition failing_backend (_ : pystr) : list pystr * option exn :=
  ([py "Hi"], Some (RuntimeError "boom")).

(** The command line with no flag given: the defaults of
    [_build_arg_parser]. *)
Definition no_flags : Args :=
  {| seed_prompt := None; seed_file := None; seed_env := None;
     seed_delay := 250; show_seed := false; skip_seed := false |}.

(** The body of the [__main__] block up to [mainloop]: the seed is resolved
    and the window is constructed on top of what the base constructor left. *)
Definition main (w : World) (a : Args) (base : UI) : UI :=
  (__init__ builtin_int (_resolve_seed_from_args_env w a).2 (show_seed a)
     (PyInt (seed_delay a)) base).1.

(** An empty file system and an empty environment. *)
Definition bare : World := {| fs := ∅; environ := ∅ |}.

(** The window of the timing scenario: [--seed-prompt Hello] with the
    default delay of 250, launcher shown at time 0. *)
Definition hello : UI :=
  main bare
    {| seed_prompt := Some (py "Hello"); seed_file := None; seed_env := None;
       seed_delay := 250; show_seed := false; skip_seed := false |}
    fresh.

(** A world in which every source has something: a readable [seed.txt],
    the default variable and the variable [MY_VAR]. *)
Definition all_sources : World :=
  {| fs := {[ py "seed.txt" := Entry (Ok (py "from file")) ]};
     environ := {[ py "CHATBOT_SEED_PROMPT" := py "from env";
                   py "MY_VAR" := py "Hi" ]} |}.

(** Every seed flag is given; [skip] says whether [--skip-seed] is too. *)
Definition all_flags (skip : bool) : Args :=
  {| seed_prompt := Some (py "direct"); seed_file := Some (py "seed.txt");
     seed_env := Some (py "MY_VAR"); seed_delay := 250; show_seed := false;
     skip_seed := skip |}.

(** [--seed-file seed.txt --seed-env MY_VAR] *)
Definition file_and_env_flags : Args :=
  {| seed_prompt := None; seed_file := Some (py "seed.txt");
     seed_env := Some (py "MY_VAR"); seed_delay := 250; show_seed := false;
     skip_seed := false |}.

(** [--seed-env MY_VAR] *)
Definition env_flag : Args :=
  {| seed_prompt := None; seed_file := None;
     seed_env := Some (py "MY_VAR"); seed_delay := 250; show_seed := false;
     skip_seed := false |}.

(** A seed file is the only flag. *)
Definition file_flag (path : pystr) : Args :=
  {| seed_prompt := None; seed_file := Some path; seed_env := None;
     seed_delay := 250; show_seed := false; skip_seed := false |}.

Definition UnicodeDecodeError : exn :=
  Exn "UnicodeDecodeError" (py "'utf-8' codec can't decode byte 0xff").

(** The default variable is set to ["Hi"]; [seed.txt] exists and is not
    valid UTF-8; no other file exists. *)
Definition env_hi : World :=
  {| fs := {[ py "seed.txt" := Entry (Raise UnicodeDecodeError) ]};
     environ := {[ py "CHATBOT_SEED_PROMPT" := py "Hi" ]} |}.

(** The handler and the [finally] clause of [_seed_worker], entered with
    the exception [e]. *)
Definition worker_handler (frame : nat) (e : exn) : M unit :=
  try_finally
    (assign (λ u, set_frames (<[frame := e]> (frames u)) u);;
     try_finally
       (after 0 (err_cb frame))
       (assign (λ u, set_frames (delete frame (frames u)) u)))
    (after 0 done_cb).

(** The body of [_seed_worker] on a stream that is given. *)
Definition worker_body (frame : nat) (toks : list pystr) (fin : option exn)
  : M unit :=
  try_finally
    (try_except
       (stream toks fin (λ tok, after 0 (append_cb tok (py "bot"))))
       (λ e,
          assign (λ u, set_frames (<[frame := e]> (frames u)) u);;
          try_finally
            (after 0 (err_cb frame))
            (assign (λ u, set_frames (delete frame (frames u)) u))))
    (after 0 done_cb).

(** Callbacks that are all due at the time [c]. *)
Definition at_time (c : Z) (cbs : list callback) : list (Z * callback) :=
  map (λ cb, (c, cb)) cbs.

(** What a callback of the worker adds to the transcript when it runs. *)
Definition entry (cb : callback) : list (pystr * pystr) :=
  match cb with
  | append_cb text tag => [(text, tag)]
  | err_cb _ => [(ERROR_NOTICE, py "sys")]
  | done_cb => [(LF, py "bot")]
  | _ => []
  end.

Fixpoint entries (cbs : list callback) : list (pystr * pystr) :=
  match cbs with
  | [] => []
  | cb :: cbs => entry cb ++ entries cbs
  end.

Definition is_err (cb : callback) : bool :=
  match cb with err_cb _ => true | _ => false end.

Definition is_done (cb : callback) : bool :=
  match cb with done_cb => true | _ => false end.

(** How many of the callbacks are [err]. *)
Fixpoint errs (cbs : list callback) : nat :=
  match cbs with
  | [] => 0
  | cb :: cbs => (if is_err cb then 1 else 0) + errs cbs
  end.

(** The callbacks a worker of the frame [frame] queues. *)
Definition ours (frame : nat) (cb : callback) : Prop :=
  match cb with
  | append_cb _ _ | done_cb => True
  | err_cb f => f = frame
  | _ => False
  end.

(** The callbacks a worker has still to queue. *)
Definition to_come (frame : nat) (w : worker) : list callback :=
  match w with
  | Streaming toks fin =>
      map (λ tok, append_cb tok (py "bot")) toks
        ++ match fin with
           | Some _ => [err_cb frame; done_cb]
           | None => [done_cb]
           end
  | Handling _ | Handled => [err_cb frame; done_cb]
  | Leaving _ | Closing _ => [done_cb]
  | Finished _ => []
  end.

(** A worker on its way through a stream that ends in [e], on a window that
    is not destroyed. *)
Definition on_failing_stream (e : exn) (w : worker) : Prop :=
  match w with
  | Streaming _ fin => fin = Some e
  | Handling e' => e' = e
  | Handled => True
  | Leaving r | Closing r | Finished r => r = Ok tt
  end.

(** What holds of the window [c.1] and the worker [c.2] at every point of
    every schedule, when the worker started on the window [u0] with the
    transcript [goal] to reach. *)
Record worker_inv (frame : nat) (e : exn) (u0 : UI)
    (goal : list (pystr * pystr)) (c : UI * worker) : Prop := {
  inv_alive : alive c.1 = true;
  inv_clock : clock c.1 = clock u0;
  inv_worker : on_failing_stream e c.2;
  inv_cell : frames c.1 !! frame = None ∨ frames c.1 !! frame = Some e;
  inv_button : is_Some (send_btn c.1);
  inv_log : log c.1 = log u0;
  inv_reported : reported c.1 = reported u0;
  inv_queue :
    ∃ q, timers c.1 = at_time (clock u0) q
      ∧ Forall (ours frame) q
      ∧ transcript c.1 ++ entries (q ++ to_come frame c.2) = goal
      ∧ (existsb is_done (q ++ to_come frame c.2) = false →
         streaming c.1 = Some false ∧ send_btn c.1 = Some normal)
      ∧ ∃ k, dialogs c.1
             = dialogs u0 ++ replicate k (py "Welcome Error", exn_msg e)
           ∧ (k + errs (q ++ to_come frame c.2) ≤ 1)%nat
}.

(** The tokens of a stream as the transcript holds them. *)
Definition bot_tokens (toks : list pystr) : list (pystr * pystr) :=
  map (λ tok, (tok, py "bot")) toks.

(** The event loop runs every timer that is on the queue now. *)
Definition drain (u : UI) : list event := ticks (length (timers u)).

(** Nothing about the seeding changes between two states: the seed text, the
    pending flag, the firing count and the started threads. *)
Definition same_seeding (u u' : UI) : Prop :=
  _seed_text u' = _seed_text u
  ∧ _pending_welcome_seed u' = _pending_welcome_seed u
  ∧ fired u' = fired u
  ∧ threads u' = threads u.

(** A piece of code that never changes anything about the seeding. *)
Definition Quiet {A} (m : M A) : Prop := ∀ u, same_seeding u (m u).1.

(** The same window once the launcher is dismissed at 50 ms and the event
    loop has run the skinning callback due at 200 ms: the readiness check is
    the next timer, due at 300 ms. *)
Definition hello_dismissed (b : option (M unit)) : UI :=
  run b failing_backend [Elapse 50; Dismiss; Tick] hello.

(* ===================================================================== *)
(** * The launcher list *)
(* ===================================================================== *)

(** A [ttk.Treeview] with the columns [name] and [created]: its rows in
    order, each with the item id Tk gave it, the selected item ids, and the
    counter Tk takes the next item id from. *)
Record treeview := mkTree {
  rows : list (nat * (pystr * pystr));
  selection : list nat;
  counter : nat
}.

(** [tree.get_children()] *)
Definition get_children (t : treeview) : list nat := map fst (rows t).

(** [tree.delete(iid)]: the item goes, also from the selection. *)
Definition tree_delete (iid : nat) (t : treeview) : treeview :=
  {| rows := filter (λ r, r.1 ≠ iid) (rows t);
     selection := filter (λ i, i ≠ iid) (selection t);
     counter := counter t |}.

(** [tree.insert("", "end", values=v)]: the new row is the last one and gets
    a fresh item id, which is returned. *)
Definition tree_insert (v : pystr * pystr) (t : treeview) : nat * treeview :=
  (counter t,
   {| rows := rows t ++ [(counter t, v)];
      selection := selection t;
      counter := S (counter t) |}).

(** The user selects rows: [tree.selection_set(iids)]. *)
Definition tree_select (iids : list nat) (t : treeview) : treeview :=
  {| rows := rows t;
     selection := filter (λ i, i ∈ get_children t) iids;
     counter := counter t |}.

(** The [Listbox] of the base class, by its items and [curselection()]. *)
Record listbox := mkListbox {
  items : list pystr;
  curselection : list nat
}.

(** Modelled from the spec: the program store, which lists program names
    and fetches a record by name; [None] is a record without a
    [created_at]. *)
Record ProgramStore := mkStore {
  list_names : list pystr;
  records : gmap pystr (option pystr)
}.

(** [getattr(rec, "created_at", "") if rec else ""] for
    [rec = self.program_store.get(n)]. *)
Definition created_of (st : ProgramStore) (n : pystr) : pystr :=
  match records st !! n with
  | Some (Some created) => created
  | _ => []
  end.

(** The window with the launcher's list on it. [infos] are the boxes of
    [messagebox.showinfo]. *)
Record Launcher := mkLauncher {
  win : UI;
  program_store : ProgramStore;
  _frontpage_tree : option treeview;
  _fp_mapping : gmap nat pystr;
  _frontpage_list : option listbox;
  empty_label : pystr;
  infos : list (pystr * pystr)
}.

Definition set_win (v : UI) (s : Launcher) : Launcher :=
  {| win := v; program_store := program_store s;
     _frontpage_tree := _frontpage_tree s; _fp_mapping := _fp_mapping s;
     _frontpage_list := _frontpage_list s; empty_label := empty_label s;
     infos := infos s |}.

Definition set_frontpage_tree (v : option treeview) (s : Launcher)
  : Launcher :=
  {| win := win s; program_store := program_store s;
     _frontpage_tree := v; _fp_mapping := _fp_mapping s;
     _frontpage_list := _frontpage_list s; empty_label := empty_label s;
     infos := infos s |}.

Definition set_fp_mapping (v : gmap nat pystr) (s : Launcher) : Launcher :=
  {| win := win s; program_store := program_store s;
     _frontpage_tree := _frontpage_tree s; _fp_mapping := v;
     _frontpage_list := _frontpage_list s; empty_label := empty_label s;
     infos := infos s |}.

Definition set_empty_label (v : pystr) (s : Launcher) : Launcher :=
  {| win := win s; program_store := program_store s;
     _frontpage_tree := _frontpage_tree s; _fp_mapping := _fp_mapping s;
     _frontpage_list := _frontpage_list s; empty_label := v;
     infos := infos s |}.

Definition set_infos (v : list (pystr * pystr)) (s : Launcher) : Launcher :=
  {| win := win s; program_store := program_store s;
     _frontpage_tree := _frontpage_tree s; _fp_mapping := _fp_mapping s;
     _frontpage_list := _frontpage_list s; empty_label := empty_label s;
     infos := v |}.

Definition NO_PROGRAMS : pystr :=
  py "No programs found. Click 'Create Program' to add one.".

(** The first loop of [_refresh_frontpage_list]:
    [for iid in tree.get_children(): tree.delete(iid)]. *)
Definition clear_rows (t : treeview) : treeview :=
  foldl (λ t iid, tree_delete iid t) t (get_children t).

(** The second loop: one row and one entry of the mapping per name. *)
Fixpoint fill_rows (st : ProgramStore) (names : list pystr)
    (tm : treeview * gmap nat pystr) : treeview * gmap nat pystr :=
  match names with
  | [] => tm
  | n :: names =>
      let '(iid, t) := tree_insert (n, created_of st n) tm.1 in
      fill_rows st names (t, <[iid := n]> tm.2)
  end.

Section Frontpage.

(** The methods the base class gives: [_refresh_frontpage_list] with its
    Listbox and [_run_program_by_name]. *)
Variable super_refresh_frontpage_list : Launcher → Launcher * result unit.
Variable _run_program_by_name : pystr → Launcher → Launcher * result unit.

(** [_refresh_frontpage_list] *)
Definition _refresh_frontpage_list (s : Launcher) : Launcher * result unit :=
  match _frontpage_tree s with
  | Some tree =>
      if alive (win s) then
        let names := list_names (program_store s) in
        let '(t, m) := fill_rows (program_store s) names (clear_rows tree, ∅) in
        (set_empty_label (match names with [] => NO_PROGRAMS | _ => [] end)
           (set_fp_mapping m (set_frontpage_tree (Some t) s)),
         Ok tt)
      else (s, Raise TclError)
  | None =>
      match super_refresh_frontpage_list s with
      | (s', Ok _) => (s', Ok tt)
      | (s', Raise _) => (s', Ok tt)
      end
  end.

(** [_get_selected_program_name] *)
Definition _get_selected_program_name (s : Launcher)
  : result (option pystr) :=
  match _frontpage_tree s with
  | Some tree =>
      if alive (win s) then
        match selection tree with
        | [] => Ok None
        | iid :: _ => Ok (_fp_mapping s !! iid)
        end
      else Raise TclError
  | None =>
      match _frontpage_list s with
      | None => Ok None
      | Some lb =>
          if alive (win s) then
            match curselection lb with
            | [] => Ok None
            | i :: _ => Ok (Some (default [] (items lb !! i)))
            end
          else Raise TclError
      end
  end.

(** [messagebox.showinfo("Programs", "Select a program to run.")] inside
    its [try]. *)
Definition show_select_hint (s : Launcher) : Launcher :=
  if alive (win s)
  then set_infos (infos s ++ [(py "Programs", py "Select a program to run.")]) s
  else s.

(** [_run_selected_program] *)
Definition _run_selected_program (s : Launcher) : Launcher * result unit :=
  match _get_selected_program_name s with
  | Raise e => (s, Raise e)
  | Ok name =>
      if negb (truthy name) then (show_select_hint s, Ok tt)
      else
        match _hide_frontpage (win s) with
        | (u, Raise e) => (set_win u s, Raise e)
        | (u, Ok _) => _run_program_by_name (or_else name []) (set_win u s)
        end
  end.

End Frontpage.

Definition set_frontpage_list (v : option listbox) (s : Launcher)
  : Launcher :=
  {| win := win s; program_store := program_store s;
     _frontpage_tree := _frontpage_tree s; _fp_mapping := _fp_mapping s;
     _frontpage_list := v; empty_label := empty_label s;
     infos := infos s |}.

(** A [Treeview] as it is made: no row, nothing selected. *)
Definition new_tree : treeview :=
  {| rows := []; selection := []; counter := 0 |}.

(** [_build_frontpage], by what it leaves on the modelled state; the theme,
    the header and the buttons leave that state alone. The overlay is a
    frame put up with [place], the tree is a new one, the mapping is empty,
    [_frontpage_list] is [None] and the label under the tree is empty; then
    the list is filled from the store. A destroyed window raises at the
    first widget. *)
Definition _build_frontpage
    (super_refresh_frontpage_list : Launcher → Launcher * result unit)
    (s : Launcher) : Launcher * result unit :=
  if alive (win s) then
    _refresh_frontpage_list super_refresh_frontpage_list
      (set_empty_label []
         (set_frontpage_list None
            (set_fp_mapping ∅
               (set_frontpage_tree (Some new_tree)
                  (set_win
                     (set_frontpage (Some (Widget (py "place"))) (win s))
                     s)))))
  else (s, Raise TclError).

(** One name per row, in order. *)
Definition row_names (t : treeview) : list pystr := map (λ r, r.2.1) (rows t).

(** The mapping and the rows agree: every row's item id maps to the row's
    name, and the mapping has no other key. *)
Definition mapping_matches (t : treeview) (m : gmap nat pystr) : Prop :=
  (∀ iid v, (iid, v) ∈ rows t → m !! iid = Some v.1)
  ∧ (∀ iid, is_Some (m !! iid) → iid ∈ get_children t).


(** A base class whose list refresh does nothing. *)
Definition no_refresh (s : Launcher) : Launcher * result unit := (s, Ok tt).

(** Running a program, taken as doing nothing to the window. *)
Definition no_run (_ : pystr) (s : Launcher) : Launcher * result unit :=
  (s, Ok tt).

(** A launcher on the window [hello]: the store lists ["a"], ["b"] and
    ["a"] again; the tree still shows one old row, which is selected. *)
Definition stale_launcher : Launcher :=
  {| win := hello;
     program_store :=
       {| list_names := [py "a"; py "b"; py "a"];
          records := {[ py "a" := Some (py "2024") ]} |};
     _frontpage_tree :=
       Some {| rows := [(3%nat, (py "old", []))];
               selection := [3%nat]; counter := 7 |};
     _fp_mapping := {[ 3%nat := py "old" ]};
     _frontpage_list := None; empty_label := []; infos := [] |}.

(** The name of the default variable. *)
Definition DEFAULT_ENV : pystr := py "CHATBOT_SEED_PROMPT".

(** The same world with another environment. *)
Definition with_environ (env : gmap pystr pystr) (w : World) : World :=
  {| fs := fs w; environ := env |}.

(** [seed.txt] holds only blanks and a line feed, and the default variable
    is set. *)
Definition blank_file_world : World :=
  {| fs := {[ py "seed.txt" := Entry (Ok (py "  " ++ LF)) ]};
     environ := {[ py "CHATBOT_SEED_PROMPT" := py "Hi" ]} |}.

(** No readiness check is on the timer queue. *)
Definition no_check (u : UI) : Prop :=
  ∀ t, t ∈ timers u → t.2 ≠ try_fire_cb.

(** An event other than a dismissal of the launcher or a direct readiness
    check. *)
Definition passive (ev : event) : Prop :=
  match ev with
  | Dismiss | Recheck => False
  | _ => True
  end.

(** A piece of code keeps the relation [R] between the window before and
    the window after. *)
Definition Keeps (R : UI → UI → Prop) {A} (m : M A) : Prop :=
  ∀ u, R u (m u).1.

(** No readiness check is queued by a step. *)
Definition check_free (u u' : UI) : Prop := no_check u → no_check u'.

(** Only the timer queue and the cells of the worker frames differ. *)
Definition only_queued (u u' : UI) : Prop :=
  _seed_text u' = _seed_text u ∧ _seed_delay_ms u' = _seed_delay_ms u
  ∧ _show_seed u' = _show_seed u
  ∧ _pending_welcome_seed u' = _pending_welcome_seed u
  ∧ streaming u' = streaming u ∧ _frontpage u' = _frontpage u
  ∧ send_btn u' = send_btn u ∧ transcript u' = transcript u
  ∧ alive u' = alive u ∧ clock u' = clock u ∧ dialogs u' = dialogs u
  ∧ reported u' = reported u ∧ spawnable u' = spawnable u
  ∧ threads u' = threads u ∧ log u' = log u ∧ fired u' = fired u.

(** The callbacks a worker queues on a stream that ends normally. *)
Definition plain_cb (cb : callback) : Prop :=
  match cb with
  | append_cb _ _ | done_cb => True
  | _ => False
  end.

(** A worker on its way through a stream that ends normally, on a window
    that is not destroyed. *)
Definition on_plain_stream (w : worker) : Prop :=
  match w with
  | Streaming _ fin => fin = None
  | Closing r | Finished r => r = Ok tt
  | _ => False
  end.

(** What holds of the window and the worker at every point of every
    schedule when the stream ends normally. *)
Record plain_inv (frame : nat) (u0 : UI) (goal : list (pystr * pystr))
    (c : UI * worker) : Prop := {
  pinv_alive : alive c.1 = true;
  pinv_clock : clock c.1 = clock u0;
  pinv_worker : on_plain_stream c.2;
  pinv_button : is_Some (send_btn c.1);
  pinv_log : log c.1 = log u0;
  pinv_reported : reported c.1 = reported u0;
  pinv_dialogs : dialogs c.1 = dialogs u0;
  pinv_frames : frames c.1 = frames u0;
  pinv_queue :
    ∃ q, timers c.1 = at_time (clock u0) q
      ∧ Forall plain_cb q
      ∧ transcript c.1 ++ entries (q ++ to_come frame c.2) = goal
      ∧ (existsb is_done (q ++ to_come frame c.2) = false →
         streaming c.1 = Some false ∧ send_btn c.1 = Some normal)
}.

(** A backend that produces ["Hel"] and ["lo"] and returns. *)
Definition good_backend (_ : pystr) : list pystr * option exn :=
  ([py "Hel"; py "lo"], None).

(** A binding of [_start_seeding] that leaves the pending flag alone. *)
Definition leaves_pending (b : option (M unit)) : Prop :=
  ∀ m, b = Some m → ∀ v, _pending_welcome_seed (m v).1 = _pending_welcome_seed v.

(** The window [hello] with the launcher dismissed and two readiness checks
    asked for. *)
Definition hello_ready : UI :=
  set_frontpage (Some (Widget [])) hello.

(** The window [hello] with an overlay whose [winfo_manager()] raises. *)
Definition hello_broken : UI :=
  set_frontpage (Some (Broken TclError)) hello.

(* ===================================================================== *)
(** * Theming *)
(* ===================================================================== *)





Section Theme.

(** The builtin [str.lower]. *)
Variable lower : pystr → pystr.






End Theme.


(* ===================================================================== *)
(** * Proofs: the resolver *)
(* ===================================================================== *)

Lemma truthy_Some (t : pystr) : t ≠ [] → truthy (Some t) = true.
Proof. destruct t; [congruence | reflexivity]. Qed.

Lemma resolve_skip w a :
  skip_seed a = true → _resolve_seed_from_args_env w a = ([], None).
Proof. unfold _resolve_seed_from_args_env. intros ->. reflexivity. Qed.

Lemma resolve_direct w a t :
  skip_seed a = false → seed_prompt a = Some t → t ≠ [] →
  _resolve_seed_from_args_env w a = ([], Some t).
Proof.
  unfold _resolve_seed_from_args_env. intros -> -> Ht.
  rewrite (truthy_Some t Ht). reflexivity.
Qed.

Lemma resolve_file w a p txt :
  skip_seed a = false → truthy (seed_prompt a) = false →
  seed_file a = Some p → p ≠ [] → fs w !! p = Some (Entry (Ok txt)) →
  _resolve_seed_from_args_env w a = ([], Some txt).
Proof.
  unfold _resolve_seed_from_args_env, read_seed_file. intros -> -> -> Hp Hfs.
  destruct p as [|c p]; [congruence|]. rewrite Hfs. reflexivity.
Qed.

Lemma resolve_env w a :
  skip_seed a = false → truthy (seed_prompt a) = false →
  file_yields_nothing w a →
  (_resolve_seed_from_args_env w a).2 = from_env w a.
Proof.
  unfold _resolve_seed_from_args_env, file_yields_nothing, read_seed_file.
  intros -> -> Hf.
  destruct (seed_file a) as [[|c p]|]; try reflexivity.
  destruct (fs w !! (c :: p)) as [[[txt|e]|e]|] eqn:E; try reflexivity.
  exfalso. exact (Hf txt eq_refl).
Qed.

Lemma from_env_Some w a v :
  from_env w a = Some v ↔ environ w !! env_name a = Some v ∧ v ≠ [].
Proof.
  unfold from_env. destruct (environ w !! env_name a) as [[|c s]|]; split;
    try (intros [? ?]); try congruence; intros; simplify_eq; auto.
Qed.

(** C4. The resolver follows the priority chain, whatever the other inputs
    are: with [--skip-seed] there is no seed; otherwise a non-empty direct
    text is returned as it is, before any file or variable is looked at;
    otherwise the text of an existing readable file is returned before any
    variable is looked at; otherwise the value of the variable named by the
    override (the default name [CHATBOT_SEED_PROMPT] when none is given) is
    returned exactly when it is set and non-empty, and there is no seed when
    it is not. *)
Theorem resolve_priority_chain :
  (∀ w a, skip_seed a = true → _resolve_seed_from_args_env w a = ([], None))
  ∧ (∀ w a t, skip_seed a = false → seed_prompt a = Some t → t ≠ [] →
       _resolve_seed_from_args_env w a = ([], Some t))
  ∧ (∀ w a p txt, skip_seed a = false → truthy (seed_prompt a) = false →
       seed_file a = Some p → p ≠ [] → fs w !! p = Some (Entry (Ok txt)) →
       _resolve_seed_from_args_env w a = ([], Some txt))
  ∧ (∀ w a, skip_seed a = false → truthy (seed_prompt a) = false →
       file_yields_nothing w a →
       (∀ v, (_resolve_seed_from_args_env w a).2 = Some v ↔
             environ w !! env_name a = Some v ∧ v ≠ [])
       ∧ (env_name a = or_else (seed_env a) (py "CHATBOT_SEED_PROMPT"))).
Proof.
  split; [exact resolve_skip|].
  split; [exact resolve_direct|].
  split; [exact resolve_file|].
  intros w a Hs Hp Hf. split; [|reflexivity].
  intros v. rewrite (resolve_env w a Hs Hp Hf). apply from_env_Some.
Qed.

Lemma resolve_priority_chain_witness :
  _resolve_seed_from_args_env all_sources (all_flags true) = ([], None)
  ∧ _resolve_seed_from_args_env all_sources (all_flags false)
    = ([], Some (py "direct"))
  ∧ _resolve_seed_from_args_env all_sources file_and_env_flags
    = ([], Some (py "from file"))
  ∧ (_resolve_seed_from_args_env all_sources env_flag).2 = Some (py "Hi").
Proof.
  destruct resolve_priority_chain as (Hskip & Hdirect & Hfile & Henv).
  split; [apply Hskip; reflexivity|].
  split; [apply Hdirect; [reflexivity | reflexivity | discriminate]|].
  split; [apply (Hfile all_sources file_and_env_flags (py "seed.txt"));
          [reflexivity | reflexivity | reflexivity | discriminate
          | reflexivity]|].
  apply (Henv all_sources env_flag); try reflexivity; try exact I.
  split; [reflexivity | discriminate].
Defined.

(* ===================================================================== *)
(** * Proofs: the readiness check *)
(* ===================================================================== *)

Ltac unfold_m :=
  unfold bind, try_except, try_finally, ret, raise, self, assign, pass,
    after, _append, send_btn_config, showerror, winfo_manager in *.

Ltac crunch :=
  cbn -[truthy strip or_else py insert_timer Z.add Z.max] in *.

Lemma overlay_active_eq u : overlay_active u = (u, Ok (overlay_visible u)).
Proof.
  unfold overlay_active, overlay_visible. unfold_m.
  destruct (_frontpage u) as [[[|c m]|e]|]; reflexivity.
Qed.

(** The three ways the readiness check can go. *)
Lemma try_fire_unarmed b u :
  armed u = false → _try_fire_welcome_seed b u = (u, Ok tt).
Proof.
  unfold armed, _try_fire_welcome_seed. unfold_m. intros H.
  destruct (truthy (_seed_text u)), (flag (_pending_welcome_seed u));
    simpl in *; congruence.
Qed.

Lemma try_fire_blocked b u :
  blocked u = true → _try_fire_welcome_seed b u = (recheck_later u, Ok tt).
Proof.
  unfold blocked, recheck_later. intros H.
  destruct (armed u) eqn:Ha; [|simpl; by apply try_fire_unarmed].
  unfold armed in Ha. apply andb_prop in Ha as [Hs Hp].
  unfold _try_fire_welcome_seed, bind at 1, self. rewrite Hs, Hp. simpl.
  unfold bind at 1. rewrite overlay_active_eq, H.
  unfold_m. destruct (alive u); reflexivity.
Qed.

Lemma try_fire_ready b u :
  armed u = true → blocked u = false →
  _try_fire_welcome_seed b u =
  call_start_seeding b
    (set_fired (S (fired u)) (set_pending_welcome_seed (Some false) u)).
Proof.
  unfold blocked. intros Ha H.
  unfold armed in Ha. apply andb_prop in Ha as [Hs Hp].
  unfold _try_fire_welcome_seed, bind at 1, self. rewrite Hs, Hp. simpl.
  unfold bind at 1. rewrite overlay_active_eq, H.
  reflexivity.
Qed.

Lemma recheck_later_blocked u : blocked (recheck_later u) = blocked u.
Proof. unfold recheck_later. destruct (armed u && alive u); reflexivity. Qed.

Lemma recheck_later_fields u :
  _pending_welcome_seed (recheck_later u) = _pending_welcome_seed u
  ∧ fired (recheck_later u) = fired u
  ∧ threads (recheck_later u) = threads u
  ∧ streaming (recheck_later u) = streaming u
  ∧ transcript (recheck_later u) = transcript u
  ∧ send_btn (recheck_later u) = send_btn u
  ∧ reported (recheck_later u) = reported u.
Proof.
  unfold recheck_later. destruct (armed u && alive u); repeat split.
Qed.

Lemma rechecks_blocked b rs n u :
  blocked u = true →
  run b rs (replicate n Recheck) u = Nat.iter n recheck_later u
  ∧ blocked (Nat.iter n recheck_later u) = true.
Proof.
  intros Hb. induction n as [|n IH].
  - split; [reflexivity | exact Hb].
  - destruct IH as [IH1 IH2].
    replace (replicate (S n) Recheck) with (replicate n Recheck ++ [Recheck])
      by (rewrite <- replicate_S_end; reflexivity).
    unfold run in *. rewrite foldl_app, IH1. simpl.
    rewrite (try_fire_blocked b _ IH2). simpl.
    split; [reflexivity|]. by rewrite recheck_later_blocked.
Qed.

Lemma iter_recheck_later_fields n u :
  _pending_welcome_seed (Nat.iter n recheck_later u) = _pending_welcome_seed u
  ∧ fired (Nat.iter n recheck_later u) = fired u
  ∧ threads (Nat.iter n recheck_later u) = threads u
  ∧ streaming (Nat.iter n recheck_later u) = streaming u
  ∧ transcript (Nat.iter n recheck_later u) = transcript u
  ∧ send_btn (Nat.iter n recheck_later u) = send_btn u
  ∧ reported (Nat.iter n recheck_later u) = reported u.
Proof.
  induction n as [|n IH]; [repeat split|]. simpl.
  destruct (recheck_later_fields (Nat.iter n recheck_later u))
    as (-> & -> & -> & -> & -> & -> & ->).
  exact IH.
Qed.

(** C2. While the overlay reports itself as mounted or the streaming flag is
    true, a readiness check returns without reaching the call of
    [_start_seeding], whatever that name is bound to: all it does is put a
    recheck on the timer queue. This holds for any number of checks in a
    row: the pending flag, the firing count, the started threads, the
    streaming flag, the transcript and the send button stay as they were. *)
Theorem no_fire_while_blocked (b : option (M unit))
    (rs : pystr → list pystr * option exn) (n : nat) (u : UI) :
  overlay_visible u = true ∨ flag (streaming u) = true →
  _try_fire_welcome_seed b u = (recheck_later u, Ok tt)
  ∧ let u' := run b rs (replicate n Recheck) u in
    u' = Nat.iter n recheck_later u
    ∧ _pending_welcome_seed u' = _pending_welcome_seed u
    ∧ fired u' = fired u
    ∧ threads u' = threads u
    ∧ streaming u' = streaming u
    ∧ transcript u' = transcript u
    ∧ send_btn u' = send_btn u
    ∧ reported u' = reported u.
Proof.
  intros H.
  assert (Hb : blocked u = true).
  { unfold blocked. destruct H as [-> | ->]; [reflexivity | apply orb_true_r]. }
  split; [by apply try_fire_blocked|]. simpl.
  destruct (rechecks_blocked b rs n u Hb) as [-> _].
  split; [reflexivity | apply iter_recheck_later_fields].
Qed.

Lemma no_fire_while_blocked_witness :
  overlay_visible hello = true
  ∧ fired (run None failing_backend (replicate 3 Recheck) hello) = fired hello.
Proof.
  split; [reflexivity|].
  apply (no_fire_while_blocked None failing_backend 3 hello).
  left. reflexivity.
Defined.

(** What the local function [_start_seeding] does when it is called on a
    window that is not streaming and has a seed, with [self._seed_worker]
    bound and a thread to be had: the bot marker, the flag, the button and
    one thread on the seed text. *)
Lemma start_seeding_body u old :
  flag (streaming u) = false → truthy (_seed_text u) = true →
  alive u = true → spawnable u = true → send_btn u = Some old →
  ∃ u', _start_seeding true u = (u', Ok tt)
    ∧ transcript u' = transcript u ++ [(py "Bot: ", py "bot")]
    ∧ streaming u' = Some true
    ∧ send_btn u' = Some disabled
    ∧ threads u' = threads u ++ [or_else (_seed_text u) []]
    ∧ timers u' = timers u.
Proof.
  intros Hs Ht Ha Hsp Hb. unfold _start_seeding, thread_start. unfold_m.
  rewrite Hs, Ht. simpl. rewrite Ha. simpl. rewrite Hb, Ha. simpl.
  rewrite Hsp. eexists. split; [reflexivity|]. repeat split.
Qed.

(** With no binding of [_start_seeding] a check that passes its guard clears
    the pending flag and raises. *)
Lemma try_fire_ready_unbound u :
  armed u = true → blocked u = false →
  _try_fire_welcome_seed None u
  = (set_fired (S (fired u)) (set_pending_welcome_seed (Some false) u),
     Raise (AttributeError "_start_seeding")).
Proof. intros Ha Hb. rewrite (try_fire_ready None u Ha Hb). reflexivity. Qed.

(** C3. The readiness check passes its guard on the window [hello] once the
    launcher is dismissed: it clears the pending flag and reaches the call
    [self._start_seeding()]. With no binding of that name in the base
    classes the call raises AttributeError, which the event loop reports:
    the streaming flag is still false, the send button is still enabled, the
    transcript has no bot marker and no thread is started. *)
Theorem firing_finds_no_start_seeding :
  let u := hello_dismissed None in
  let u' := step None failing_backend Tick u in
  armed u = true ∧ blocked u = false
  ∧ _pending_welcome_seed u' = Some false
  ∧ fired u' = 1%nat
  ∧ reported u' = [AttributeError "_start_seeding"]
  ∧ streaming u' = Some false
  ∧ send_btn u' = Some normal
  ∧ transcript u' = transcript u
  ∧ threads u' = [].
Proof. vm_compute. repeat split. Qed.

(** ** Proofs: the dismissal hook *)

Lemma super_hide_frontpage_fields u :
  let u' := (super_hide_frontpage u).1 in
  _seed_text u' = _seed_text u ∧ _seed_delay_ms u' = _seed_delay_ms u
  ∧ _pending_welcome_seed u' = _pending_welcome_seed u
  ∧ alive u' = alive u ∧ clock u' = clock u ∧ timers u' = timers u
  ∧ fired u' = fired u ∧ threads u' = threads u.
Proof.
  unfold super_hide_frontpage.
  destruct (_frontpage u) as [[m|e]|]; [destruct (alive u) eqn:E| |];
    cbn; rewrite ?E; repeat split.
Qed.

Lemma hide_frontpage_unseeded u :
  truthy (_seed_text u) = false → _hide_frontpage u = super_hide_frontpage u.
Proof.
  intros H. unfold _hide_frontpage. unfold_m.
  destruct (super_hide_frontpage_fields u) as (Hs & _).
  destruct (super_hide_frontpage u) as [u' r]. simpl in Hs.
  rewrite Hs, H. reflexivity.
Qed.

Lemma hide_frontpage_seeded u :
  truthy (_seed_text u) = true → alive u = true →
  (_hide_frontpage u).1 =
  set_timers
    (insert_timer (clock u + Z.max 0 (default 250 (_seed_delay_ms u)),
                   try_fire_cb) (timers u))
    (set_pending_welcome_seed (Some true) (super_hide_frontpage u).1).
Proof.
  intros H Ha. unfold _hide_frontpage. unfold_m.
  destruct (super_hide_frontpage_fields u) as (Hs & Hd & _ & Hal & Hc & Hq & _).
  destruct (super_hide_frontpage u) as [u' r]. simpl in *.
  rewrite Hs, H. simpl. rewrite Hal, Ha, Hd, Hc, Hq. reflexivity.
Qed.

(** The hook marks the seed pending whenever a seed text is configured,
    whether or not it has fired before. *)
Lemma hide_frontpage_marks_pending u :
  truthy (_seed_text u) = true →
  _pending_welcome_seed (_hide_frontpage u).1 = Some true.
Proof.
  intros H. unfold _hide_frontpage. unfold_m.
  destruct (super_hide_frontpage_fields u) as (Hs & _).
  destruct (super_hide_frontpage u) as [u' r]. simpl in *.
  rewrite Hs, H. cbn. destruct (alive u') eqn:E; cbn; rewrite ?E; reflexivity.
Qed.

(** C1. On the window [hello] the seed fires at 300 ms and the pending flag
    goes from true to false. A second call of [_hide_frontpage] sets the flag
    back to true and schedules a check, which fires again: the flag goes
    from true to false a second time. With [_start_seeding] bound to the
    function of that name and the first generation over, the second firing
    starts a second worker on the seed. *)
Theorem second_dismissal_fires_again :
  let seeding := Some (_start_seeding true) in
  let u1 := run None failing_backend [Tick] (hello_dismissed None) in
  let u2 := run None failing_backend [Dismiss] u1 in
  let u3 := run None failing_backend [Tick] u2 in
  let v := run seeding failing_backend
             ([Tick; Work 0%nat] ++ ticks 3 ++ [Dismiss; Tick])
             (hello_dismissed seeding) in
  _pending_welcome_seed (hello_dismissed None) = Some true
  ∧ (_pending_welcome_seed u1 = Some false ∧ fired u1 = 1%nat)
  ∧ _pending_welcome_seed u2 = Some true
  ∧ (_pending_welcome_seed u3 = Some false ∧ fired u3 = 2%nat)
  ∧ (fired v = 2%nat ∧ threads v = [py "Hello"; py "Hello"]).
Proof. vm_compute. repeat split. Qed.

(** With no flag on the command line the delay is 250 and nothing is
    pending. *)
Lemma main_without_flags :
  _seed_delay_ms (main bare no_flags fresh) = Some 250
  ∧ _pending_welcome_seed (main bare no_flags fresh) = None.
Proof. split; reflexivity. Qed.

(** C8. After the dismissal hook the first readiness check is due the
    configured delay later (250 when the attribute is missing), and a check
    whose guard fails puts the next one 300 ms later, whatever the delay is.
    On the window [hello], with the seed ["Hello"], the delay 250 and the
    dismissal at 50 ms, the check is due at 300 ms: nothing has fired when
    the event loop has run the callback due at 200 ms, and the seed fires in
    the turn that runs at 300 ms. *)
Theorem readiness_check_timing (b : option (M unit)) (u : UI) :
  truthy (_seed_text u) = true → alive u = true →
  timers (_hide_frontpage u).1 =
    insert_timer (clock u + Z.max 0 (default 250 (_seed_delay_ms u)),
                  try_fire_cb) (timers u)
  ∧ (flag (_pending_welcome_seed u) = true → blocked u = true →
     timers (_try_fire_welcome_seed b u).1 =
       insert_timer (clock u + 300, try_fire_cb) (timers u))
  ∧ (let s0 := run b failing_backend [Elapse 50; Dismiss] hello in
     let s1 := step b failing_backend Tick s0 in
     _seed_delay_ms hello = Some 250
     ∧ clock s0 = 50 ∧ timers s0 = [(200, skin_cb); (300, try_fire_cb)]
     ∧ fired s0 = 0%nat
     ∧ clock s1 = 200 ∧ timers s1 = [(300, try_fire_cb)] ∧ fired s1 = 0%nat
     ∧ _pending_welcome_seed s1 = Some true
     ∧ armed s1 = true ∧ blocked s1 = false)
  ∧ (let s2 := step None failing_backend Tick (hello_dismissed None) in
     clock s2 = 300 ∧ fired s2 = 1%nat
     ∧ _pending_welcome_seed s2 = Some false).
Proof.
  intros Hs Ha. split; [|split; [|split]].
  - rewrite (hide_frontpage_seeded u Hs Ha). reflexivity.
  - intros Hp Hb. rewrite (try_fire_blocked b u Hb).
    unfold recheck_later, armed. rewrite Hs, Hp, Ha. reflexivity.
  - vm_compute. repeat split.
  - vm_compute. repeat split.
Qed.

Lemma readiness_check_timing_witness :
  timers (_hide_frontpage (step None failing_backend (Elapse 50) hello)).1
  = [(200, skin_cb); (300, try_fire_cb)].
Proof.
  refine (proj1 (readiness_check_timing None
                   (step None failing_backend (Elapse 50) hello) _ _));
    reflexivity.
Defined.

(* ===================================================================== *)
(** * Proofs: a file that gives no text *)
(* ===================================================================== *)

(** C5, as the code has it. With no [--skip-seed] and no direct text, a seed
    file whose reading or decoding fails is logged and a seed file that does
    not exist is passed over in silence; in both cases the resolver goes on
    to the environment variable, and returns no seed only when that variable
    is unset or empty. *)
Theorem resolve_file_failure (w : World) (a : Args) (p : pystr) :
  skip_seed a = false → truthy (seed_prompt a) = false →
  seed_file a = Some p → p ≠ [] →
  (∀ e, fs w !! p = Some (Entry (Raise e)) ∨ fs w !! p = Some (NoStat e) →
        _resolve_seed_from_args_env w a = ([log_read_failure e], from_env w a))
  ∧ (fs w !! p = None →
        _resolve_seed_from_args_env w a = ([], from_env w a))
  ∧ (from_env w a = None ↔
       environ w !! env_name a = None ∨ environ w !! env_name a = Some []).
Proof.
  intros Hs Hp Hf Hne. destruct p as [|c p]; [congruence|].
  unfold _resolve_seed_from_args_env, read_seed_file. rewrite Hs, Hp, Hf.
  split; [|split].
  - intros e [-> | ->]; reflexivity.
  - intros ->. reflexivity.
  - unfold from_env. destruct (environ w !! env_name a) as [[|c' v]|];
      split; auto; intros [?|?]; congruence.
Qed.

Lemma resolve_file_failure_witness :
  _resolve_seed_from_args_env env_hi (file_flag (py "seed.txt"))
  = ([log_read_failure UnicodeDecodeError], Some (py "Hi")).
Proof.
  refine (proj1 (resolve_file_failure env_hi (file_flag (py "seed.txt"))
                   (py "seed.txt") _ _ _ _) UnicodeDecodeError _);
    try reflexivity; [discriminate | left; reflexivity].
Defined.

(** C5 as the claim states it fails: with the default variable set, a seed
    file that does not exist, and one that cannot be decoded, both end in
    the seed ["Hi"], not in no seed. *)
Lemma missing_file_falls_through_to_env :
  (fs env_hi !! py "missing.txt" = None
   ∧ (_resolve_seed_from_args_env env_hi (file_flag (py "missing.txt"))).2
     = Some (py "Hi"))
  ∧ (fs env_hi !! py "seed.txt" = Some (Entry (Raise UnicodeDecodeError))
     ∧ (_resolve_seed_from_args_env env_hi (file_flag (py "seed.txt"))).2
       = Some (py "Hi")).
Proof. vm_compute. repeat split. Qed.

(* ===================================================================== *)
(** * Proofs: the constructor *)
(* ===================================================================== *)

Section Constructor.

Context {PyVal : Type}.
Variable py_int : PyVal → result Z.

(** What the constructor leaves. *)
Lemma init_fields seed show (v : PyVal) u0 :
  let r := __init__ py_int seed show v u0 in
  r.2 = Ok tt
  ∧ _seed_text r.1 = Some (strip (or_else seed []))
  ∧ _seed_delay_ms r.1 = Some match py_int v with
                               | Ok n => Z.max 0 n
                               | Raise _ => 250
                               end
  ∧ _show_seed r.1 = Some show
  ∧ _pending_welcome_seed r.1 =
      (if truthy (Some (strip (or_else seed []))) && alive u0
       then Some true else _pending_welcome_seed u0)
  ∧ fired r.1 = fired u0
  ∧ threads r.1 = threads u0.
Proof.
  unfold __init__. unfold_m.
  generalize NOTICE_SHOWING, NOTICE_ENABLED, NOTICE_TIP, (py "sys").
  intros n1 n2 n3 sys. crunch.
  destruct (truthy (Some (strip (or_else seed [])))) eqn:Ht; crunch;
    destruct show; crunch; destruct (alive u0) eqn:Ha; crunch; rewrite ?Ha;
    crunch; rewrite ?Ha; repeat split.
Qed.

End Constructor.

(** C10. Whatever is passed as [seed_delay_ms] and whatever [int] makes of
    it, the constructor returns normally and stores a delay that is not
    negative: the integer itself when it is not negative, 0 when it is
    negative, and 250 when the conversion raises. *)
Theorem constructor_delay_is_clamped :
  ∀ (PyVal : Type) (py_int : PyVal → result Z) seed show (v : PyVal) u0,
  let r := __init__ py_int seed show v u0 in
  r.2 = Ok tt
  ∧ ∃ d, _seed_delay_ms r.1 = Some d ∧ 0 ≤ d
    ∧ (∀ n, py_int v = Ok n → 0 ≤ n → d = n)
    ∧ (∀ n, py_int v = Ok n → n < 0 → d = 0)
    ∧ (∀ e, py_int v = Raise e → d = 250).
Proof.
  intros PyVal py_int seed show v u0 r.
  destruct (init_fields py_int seed show v u0) as (Hr & _ & Hd & _).
  split; [exact Hr|]. eexists. split; [exact Hd|].
  destruct (py_int v) as [n|e]; repeat split; intros; simplify_eq; lia.
Qed.

Lemma constructor_delay_is_clamped_witness :
  ∃ d1 d2 d3,
    _seed_delay_ms (__init__ builtin_int None false (PyInt (-5)) fresh).1
      = Some d1 ∧ d1 = 0
    ∧ _seed_delay_ms (__init__ builtin_int None false PyNone fresh).1
      = Some d2 ∧ d2 = 250
    ∧ _seed_delay_ms (__init__ builtin_int None false (PyInt 40) fresh).1
      = Some d3 ∧ d3 = 40.
Proof.
  destruct (constructor_delay_is_clamped pyval builtin_int None false
              (PyInt (-5)) fresh) as (_ & d1 & H1 & _ & _ & N1 & _).
  destruct (constructor_delay_is_clamped pyval builtin_int None false
              PyNone fresh) as (_ & d2 & H2 & _ & _ & _ & E2).
  destruct (constructor_delay_is_clamped pyval builtin_int None false
              (PyInt 40) fresh) as (_ & d3 & H3 & _ & P3 & _).
  exists d1, d2, d3. repeat split; try assumption.
  - apply (N1 (-5)); [reflexivity | lia].
  - eapply E2. reflexivity.
  - apply (P3 40); [reflexivity | lia].
Defined.

(* ===================================================================== *)
(** * Proofs: code that leaves the seeding alone *)
(* ===================================================================== *)

Lemma same_seeding_refl u : same_seeding u u.
Proof. repeat split. Qed.

Lemma same_seeding_trans u1 u2 u3 :
  same_seeding u1 u2 → same_seeding u2 u3 → same_seeding u1 u3.
Proof.
  unfold same_seeding. intros (a1 & b1 & c1 & d1) (a2 & b2 & c2 & d2).
  repeat split; congruence.
Qed.

Lemma Quiet_ret {A} (a : A) : Quiet (ret a).
Proof. intros u. apply same_seeding_refl. Qed.

Lemma Quiet_raise {A} e : Quiet (@raise A e).
Proof. intros u. apply same_seeding_refl. Qed.

Lemma Quiet_self : Quiet self.
Proof. intros u. apply same_seeding_refl. Qed.

Lemma Quiet_bind {A B} (m : M A) (k : A → M B) :
  Quiet m → (∀ a, Quiet (k a)) → Quiet (bind m k).
Proof.
  intros Hm Hk u. unfold bind. specialize (Hm u).
  destruct (m u) as [u' [a|e]]; simpl in *; [|exact Hm].
  eapply same_seeding_trans; [exact Hm | apply Hk].
Qed.

Lemma Quiet_try_except {A} (m : M A) (h : exn → M A) :
  Quiet m → (∀ e, Quiet (h e)) → Quiet (try_except m h).
Proof.
  intros Hm Hh u. unfold try_except. specialize (Hm u).
  destruct (m u) as [u' [a|e]]; simpl in *; [exact Hm|].
  eapply same_seeding_trans; [exact Hm | apply Hh].
Qed.

Lemma Quiet_try_finally {A} (m : M A) (f : M unit) :
  Quiet m → Quiet f → Quiet (try_finally m f).
Proof.
  intros Hm Hf u. unfold try_finally. specialize (Hm u).
  destruct (m u) as [u' r]. specialize (Hf u').
  destruct (f u') as [u'' [[]|e]]; simpl in *;
    eapply same_seeding_trans; eauto.
Qed.

Lemma Quiet_pass e : Quiet (pass e).
Proof. apply Quiet_ret. Qed.

Lemma Quiet_after ms cb : Quiet (after ms cb).
Proof. intros u. unfold after. destruct (alive u); repeat split. Qed.

Lemma Quiet_append text tag : Quiet (_append text tag).
Proof. intros u. unfold _append. destruct (alive u); repeat split. Qed.

Lemma Quiet_send_btn_config s : Quiet (send_btn_config s).
Proof.
  intros u. unfold send_btn_config.
  destruct (send_btn u); [destruct (alive u)|]; repeat split.
Qed.

Lemma Quiet_showerror title msg : Quiet (showerror title msg).
Proof. intros u. unfold showerror. destruct (alive u); repeat split. Qed.

Lemma Quiet_set_streaming v : Quiet (assign (set_streaming v)).
Proof. intros u. repeat split. Qed.

Lemma Quiet_set_frames (f : UI → gmap nat exn) :
  Quiet (assign (λ u, set_frames (f u) u)).
Proof. intros u. repeat split. Qed.

Lemma Quiet_super_hide_frontpage : Quiet super_hide_frontpage.
Proof.
  intros u. destruct (super_hide_frontpage_fields u) as (a & _ & b & _ & _ & _ & c & d).
  repeat split; assumption.
Qed.

Lemma Quiet_skin : Quiet _skin_legacy_chat_widgets.
Proof.
  intros u. unfold _skin_legacy_chat_widgets, try_except, assign.
  destruct (alive u); repeat split.
Qed.

Create HintDb quiet.
#[local] Hint Resolve Quiet_ret Quiet_raise Quiet_self Quiet_bind
  Quiet_try_except Quiet_try_finally Quiet_pass Quiet_after Quiet_append
  Quiet_send_btn_config Quiet_showerror Quiet_set_streaming Quiet_set_frames
  Quiet_super_hide_frontpage Quiet_skin : quiet.

Lemma Quiet_err frame : Quiet (err frame).
Proof.
  unfold err. apply Quiet_bind; [auto with quiet|]. intros _.
  apply Quiet_try_except; [|auto with quiet].
  intros u. unfold bind, self.
  destruct (frames u !! frame); [apply Quiet_showerror | apply Quiet_raise].
Qed.

Lemma Quiet_done : Quiet done.
Proof. unfold done. auto 10 with quiet. Qed.

Lemma Quiet_stream toks fin (on_token : pystr → M unit) :
  (∀ tok, Quiet (on_token tok)) → Quiet (stream toks fin on_token).
Proof.
  intros H. induction toks as [|tok toks IH]; simpl.
  - destruct fin; auto with quiet.
  - auto with quiet.
Qed.

Lemma Quiet_seed_worker rs frame text : Quiet (_seed_worker rs frame text).
Proof.
  unfold _seed_worker. apply Quiet_try_finally; [|auto with quiet].
  apply Quiet_try_except.
  - destruct (rs text) as [toks fin]. apply Quiet_stream. auto with quiet.
  - intros e. apply Quiet_bind; [apply Quiet_set_frames|]. intros _.
    apply Quiet_try_finally; [auto with quiet | apply Quiet_set_frames].
Qed.

Lemma same_seeding_report u (r : UI * result unit) :
  same_seeding u r.1 → same_seeding u (report r).
Proof. destruct r as [u' [[]|e]]; simpl; [auto|]. intros (a & b & c & d). repeat split; assumption. Qed.

(** Without a seed text no event changes anything about the seeding. *)
Lemma step_unseeded b rs ev u :
  truthy (_seed_text u) = false → same_seeding u (step b rs ev u).
Proof.
  intros H. destruct ev; simpl.
  - apply same_seeding_report. rewrite (hide_frontpage_unseeded u H).
    apply Quiet_super_hide_frontpage.
  - unfold mainloop_step. destruct (timers u) as [|[due cb] rest];
      [apply same_seeding_refl|].
    apply same_seeding_report.
    set (u1 := set_clock _ _).
    assert (H1 : same_seeding u u1) by repeat split.
    eapply same_seeding_trans; [exact H1|].
    destruct cb; simpl.
    + apply Quiet_skin.
    + rewrite try_fire_unarmed; [apply same_seeding_refl|].
      unfold armed. change (_seed_text u1) with (_seed_text u).
      rewrite H. reflexivity.
    + apply Quiet_append.
    + apply Quiet_err.
    + apply Quiet_done.
  - apply same_seeding_report. rewrite try_fire_unarmed;
      [apply same_seeding_refl|]. unfold armed. rewrite H. reflexivity.
  - repeat split.
  - repeat split.
  - repeat split.
  - destruct (threads u !! frame); [|apply same_seeding_refl].
    apply same_seeding_report. apply Quiet_seed_worker.
Qed.

Lemma run_unseeded b rs evs u :
  truthy (_seed_text u) = false → same_seeding u (run b rs evs u).
Proof.
  revert u. induction evs as [|ev evs IH]; intros u H.
  - apply same_seeding_refl.
  - unfold run. simpl. fold (run b rs evs (step b rs ev u)).
    pose proof (step_unseeded b rs ev u H) as Hs.
    eapply same_seeding_trans; [exact Hs|]. apply IH.
    destruct Hs as (-> & _). exact H.
Qed.

(** C9. When the seed text handed to the constructor is missing, empty or
    only whitespace, the constructor leaves the pending flag as the base
    constructor left it, and so does every later event: dismissals of the
    launcher, turns of the event loop, direct readiness checks, passing
    time, chat generations, a launcher that comes back. The readiness check
    never reaches the call of [_start_seeding] and no worker is started,
    whatever [_start_seeding] is bound to. *)
Theorem empty_seed_never_fires :
  ∀ (PyVal : Type) (py_int : PyVal → result Z) (b : option (M unit))
    (rs : pystr → list pystr * option exn)
    (seed : option pystr) (show : bool) (v : PyVal) (u0 : UI)
    (evs : list event),
  strip (or_else seed []) = [] →
  let u := (__init__ py_int seed show v u0).1 in
  let u' := run b rs evs u in
  _seed_text u = Some []
  ∧ _pending_welcome_seed u = _pending_welcome_seed u0
  ∧ _pending_welcome_seed u' = _pending_welcome_seed u0
  ∧ fired u' = fired u0
  ∧ threads u' = threads u0.
Proof.
  intros PyVal py_int b rs seed show v u0 evs He u u'.
  destruct (init_fields py_int seed show v u0)
    as (_ & Ht & _ & _ & Hp & Hf & Hth).
  fold u in Ht, Hp, Hf, Hth. rewrite He in Ht, Hp. simpl in Hp.
  assert (Hu : truthy (_seed_text u) = false) by (rewrite Ht; reflexivity).
  destruct (run_unseeded b rs evs u Hu) as (_ & Hp' & Hf' & Hth').
  fold u' in Hp', Hf', Hth'.
  repeat split; congruence.
Qed.

Lemma empty_seed_never_fires_witness :
  let u := (__init__ builtin_int (Some (py "  ")) true (PyInt 250) fresh).1 in
  _pending_welcome_seed
    (run (Some (_start_seeding true)) failing_backend
       [Elapse 50; Dismiss; Tick; Tick; Recheck] u) = None.
Proof.
  apply (empty_seed_never_fires pyval builtin_int (Some (_start_seeding true))
           failing_backend (Some (py "  ")) true (PyInt 250) fresh
           [Elapse 50; Dismiss; Tick; Tick; Recheck]).
  reflexivity.
Defined.

(* ===================================================================== *)
(** * Proofs: the worker *)
(* ===================================================================== *)

Lemma set_timers_same u : set_timers (timers u) u = u.
Proof. destruct u. reflexivity. Qed.

Lemma set_clock_same u : set_clock (clock u) u = u.
Proof. destruct u. reflexivity. Qed.

(** A timer due no earlier than the others goes to the end of the queue. *)
Lemma insert_timer_last c cb q :
  Forall (λ x, x.1 ≤ c) q → insert_timer (c, cb) q = q ++ [(c, cb)].
Proof.
  induction 1 as [|x q Hx _ IH]; [reflexivity|]. simpl.
  destruct (Z.ltb_spec c x.1); [lia|]. by rewrite IH.
Qed.

Lemma at_time_due c cbs : Forall (λ x, x.1 ≤ c) (at_time c cbs).
Proof. unfold at_time. apply Forall_map, Forall_true. intros cb. simpl. lia. Qed.

Lemma after_0_at_time cb cbs u :
  alive u = true → timers u = at_time (clock u) cbs →
  after 0 cb u = (set_timers (at_time (clock u) (cbs ++ [cb])) u, Ok tt).
Proof.
  intros Ha Hq. unfold after. rewrite Ha, Hq, Z.add_0_r.
  rewrite insert_timer_last by apply at_time_due.
  unfold at_time. rewrite map_app. reflexivity.
Qed.

Lemma stream_enqueues fin toks : ∀ cbs u,
  alive u = true → timers u = at_time (clock u) cbs →
  stream toks fin (λ tok, after 0 (append_cb tok (py "bot"))) u
  = (set_timers
       (at_time (clock u)
          (cbs ++ map (λ tok, append_cb tok (py "bot")) toks)) u,
     match fin with Some e => Raise e | None => Ok tt end).
Proof.
  induction toks as [|tok toks IH]; intros cbs u Ha Hq; simpl.
  - rewrite app_nil_r, <- Hq, set_timers_same. destruct fin; reflexivity.
  - unfold bind. rewrite (after_0_at_time _ cbs u Ha Hq).
    rewrite (IH (cbs ++ [append_cb tok (py "bot")])); [|exact Ha|reflexivity].
    rewrite <- app_assoc. reflexivity.
Qed.

Lemma seed_worker_failure rs frame text toks e u :
  alive u = true → timers u = [] → rs text = (toks, Some e) →
  _seed_worker rs frame text u
  = (set_timers
       (at_time (clock u)
          (map (λ tok, append_cb tok (py "bot")) toks
             ++ [err_cb frame; done_cb]))
       (set_frames (delete frame (<[frame := e]> (frames u))) u),
     Ok tt).
Proof.
  intros Ha Hq Hrs. unfold _seed_worker, try_finally, try_except. rewrite Hrs.
  rewrite (stream_enqueues (Some e) toks [] u Ha Hq). simpl app.
  unfold bind at 1, assign at 1.
  set (cbs := map _ toks).
  set (u1 := set_frames _ _).
  unfold try_finally.
  rewrite (after_0_at_time (err_cb frame) cbs u1 Ha eq_refl).
  unfold assign.
  set (u2 := set_frames _ _).
  rewrite (after_0_at_time done_cb (cbs ++ [err_cb frame]) u2 Ha eq_refl).
  rewrite <- app_assoc. reflexivity.
Qed.

Section Draining.

Variable b : option (M unit).
Variable rs : pystr → list pystr * option exn.

Lemma tick_append text tag rest u :
  alive u = true → timers u = (clock u, append_cb text tag) :: rest →
  step b rs Tick u
  = set_timers rest (set_transcript (transcript u ++ [(text, tag)]) u).
Proof.
  intros Ha Hq. simpl. unfold mainloop_step. rewrite Hq. simpl.
  unfold _append. simpl. rewrite Ha, Z.max_id. simpl.
  destruct u; reflexivity.
Qed.

Lemma tick_err_unbound frame rest u :
  alive u = true → timers u = (clock u, err_cb frame) :: rest →
  frames u !! frame = None →
  step b rs Tick u
  = set_timers rest
      (set_transcript (transcript u ++ [(ERROR_NOTICE, py "sys")]) u).
Proof.
  intros Ha Hq Hf. simpl. unfold mainloop_step. rewrite Hq. simpl.
  unfold err. unfold_m. simpl. rewrite Ha. simpl. rewrite Hf, Z.max_id.
  simpl. destruct u; reflexivity.
Qed.

Lemma tick_err_bound frame e rest u :
  alive u = true → timers u = (clock u, err_cb frame) :: rest →
  frames u !! frame = Some e →
  step b rs Tick u
  = set_dialogs (dialogs u ++ [(py "Welcome Error", exn_msg e)])
      (set_timers rest
         (set_transcript (transcript u ++ [(ERROR_NOTICE, py "sys")]) u)).
Proof.
  intros Ha Hq Hf. simpl. unfold mainloop_step. rewrite Hq. simpl.
  unfold err. unfold_m. simpl. rewrite Ha. simpl. rewrite Hf, Z.max_id.
  simpl. rewrite Ha. simpl. destruct u; reflexivity.
Qed.

Lemma tick_done old rest u :
  alive u = true → timers u = (clock u, done_cb) :: rest →
  send_btn u = Some old →
  step b rs Tick u
  = set_send_btn (Some normal)
      (set_streaming (Some false)
         (set_timers rest
            (set_transcript (transcript u ++ [(LF, py "bot")]) u))).
Proof.
  intros Ha Hq Hb. simpl. unfold mainloop_step. rewrite Hq. simpl.
  unfold done. unfold_m. simpl. rewrite Ha. simpl. rewrite Hb, Z.max_id.
  simpl. rewrite Ha. simpl. destruct u; reflexivity.
Qed.

Lemma ticks_append_all toks : ∀ rest u,
  alive u = true →
  timers u
  = at_time (clock u) (map (λ tok, append_cb tok (py "bot")) toks) ++ rest →
  run b rs (ticks (length toks)) u
  = set_timers rest (set_transcript (transcript u ++ bot_tokens toks) u).
Proof.
  induction toks as [|tok toks IH]; intros rest u Ha Hq.
  - simpl in *. rewrite app_nil_r, <- Hq. destruct u; reflexivity.
  - change (run b rs (ticks (length (tok :: toks))) u)
      with (run b rs (ticks (length toks)) (step b rs Tick u)).
    rewrite (tick_append tok (py "bot") _ u Ha Hq).
    rewrite IH with (rest := rest); [|exact Ha|reflexivity].
    simpl. rewrite <- app_assoc. reflexivity.
Qed.

End Draining.

Lemma run_app b rs evs1 evs2 u :
  run b rs (evs1 ++ evs2) u = run b rs evs2 (run b rs evs1 u).
Proof. unfold run. apply foldl_app. Qed.

(** The worker on a backend that fails, and the event loop after it: the
    tokens, the error notice and the closing line feed reach the transcript
    in this order, the streaming flag is reset and the send button enabled;
    no error box is shown, because [err] runs when the worker has left its
    handler and [e] is unbound; nothing is logged. *)
Lemma worker_failure_completes b rs frame text toks e old u :
  alive u = true → timers u = [] → send_btn u = Some old →
  rs text = (toks, Some e) →
  let r := _seed_worker rs frame text u in
  let u' := run b rs (drain r.1) r.1 in
  r.2 = Ok tt
  ∧ frames r.1 !! frame = None
  ∧ log r.1 = log u
  ∧ transcript u'
    = transcript u ++ bot_tokens toks
        ++ [(ERROR_NOTICE, py "sys"); (LF, py "bot")]
  ∧ streaming u' = Some false
  ∧ send_btn u' = Some normal
  ∧ dialogs u' = dialogs u
  ∧ log u' = log u
  ∧ reported u' = reported u
  ∧ timers u' = [].
Proof.
  intros Ha Hq Hb Hrs r u'. subst r u'.
  rewrite (seed_worker_failure rs frame text toks e u Ha Hq Hrs).
  cbn [fst snd]. set (u1 := set_timers _ _).
  split; [reflexivity|].
  split; [apply lookup_delete_eq|].
  split; [reflexivity|].
  assert (Hd : drain u1 = ticks (length toks) ++ [Tick; Tick]).
  { unfold drain, u1, at_time, ticks. cbn [timers set_timers].
    rewrite length_map, length_app, length_map. simpl.
    rewrite replicate_add. reflexivity. }
  rewrite Hd, run_app.
  rewrite (ticks_append_all b rs toks [(clock u, err_cb frame); (clock u, done_cb)] u1 Ha);
    [|unfold u1, at_time; cbn [timers set_timers clock set_frames];
      rewrite map_app; reflexivity].
  set (u2 := set_timers _ _).
  change (run b rs [Tick; Tick] u2)
    with (step b rs Tick (step b rs Tick u2)).
  rewrite (tick_err_unbound b rs frame [(clock u, done_cb)] u2 Ha eq_refl);
    [|apply lookup_delete_eq].
  set (u3 := set_timers _ _).
  rewrite (tick_done b rs old [] u3 Ha eq_refl Hb).
  cbn. rewrite <- !app_assoc. repeat split.
Qed.

(* ===================================================================== *)
(** * Proofs: the worker next to the event loop *)
(* ===================================================================== *)

Section Interleaving.

Variable b : option (M unit).
Variable rs : pystr → list pystr * option exn.
Variable frame : nat.

Abbreviation worker_turns n := (replicate n Worker).

Lemma interleave_app s1 s2 c :
  interleave b frame (s1 ++ s2) c
  = interleave b frame s2 (interleave b frame s1 c).
Proof. unfold interleave. apply foldl_app. Qed.

Lemma worker_turns_S n u w :
  interleave b frame (worker_turns (S n)) (u, w)
  = interleave b frame (worker_turns n) (worker_step frame w u).
Proof. reflexivity. Qed.

Lemma worker_finished_stays n u r :
  interleave b frame (worker_turns n) (u, Finished r) = (u, Finished r).
Proof. induction n as [|n IH]; [reflexivity|]. simpl. exact IH. Qed.

Lemma seed_worker_body text :
  _seed_worker rs frame text = worker_body frame (rs text).1 (rs text).2.
Proof. unfold _seed_worker, worker_body. destruct (rs text). reflexivity. Qed.

Lemma worker_body_nil_raise e u :
  worker_body frame [] (Some e) u = worker_handler frame e u.
Proof. reflexivity. Qed.

Lemma worker_body_cons tok toks fin u :
  worker_body frame (tok :: toks) fin u
  = match after 0 (append_cb tok (py "bot")) u with
    | (u', Ok _) => worker_body frame toks fin u'
    | (u', Raise e) => worker_handler frame e u'
    end.
Proof.
  unfold worker_body, worker_handler, try_finally, try_except. simpl stream.
  unfold bind at 1.
  destruct (after 0 (append_cb tok (py "bot")) u) as [u' [[]|e]]; reflexivity.
Qed.

Lemma worker_handler_turns e n u :
  interleave b frame (worker_turns (4 + n)) (u, Handling e)
  = ((worker_handler frame e u).1, Finished (worker_handler frame e u).2).
Proof.
  change (worker_turns (4 + n))
    with ([Worker; Worker; Worker; Worker] ++ worker_turns n).
  rewrite interleave_app. unfold worker_handler. unfold_m.
  unfold interleave at 2. simpl.
  destruct (alive u) eqn:Ha;
    repeat (progress (unfold after; simpl; rewrite ?Ha));
    apply worker_finished_stays.
Qed.

(** Run without a break, the calls of the worker are [_seed_worker]. *)
Lemma worker_turns_body fin toks : ∀ u,
  interleave b frame (worker_turns (length toks + 5)) (u, Streaming toks fin)
  = ((worker_body frame toks fin u).1,
     Finished (worker_body frame toks fin u).2).
Proof.
  induction toks as [|tok toks IH]; intros u.
  - destruct fin as [e|].
    + change (length [] + 5)%nat with (S (4 + 0)).
      rewrite worker_turns_S. simpl worker_step.
      rewrite worker_handler_turns. reflexivity.
    + unfold worker_body. unfold_m. unfold interleave. simpl.
      destruct (alive u) eqn:Ha;
        repeat (progress (unfold after; simpl; rewrite ?Ha)); reflexivity.
  - change (length (tok :: toks) + 5)%nat with (S (length toks + 5)).
    rewrite worker_turns_S, worker_body_cons. simpl worker_step.
    destruct (after 0 (append_cb tok (py "bot")) u) as [u' [[]|e]].
    + apply IH.
    + replace (length toks + 5)%nat with (4 + (length toks + 1))%nat by lia.
      apply worker_handler_turns.
Qed.

Lemma worker_turns_seed_worker text u :
  ∃ n, interleave b frame (worker_turns n) (u, worker_start rs text)
       = ((_seed_worker rs frame text u).1,
          Finished (_seed_worker rs frame text u).2).
Proof.
  rewrite seed_worker_body. unfold worker_start.
  destruct (rs text) as [toks fin]. eexists. apply worker_turns_body.
Qed.

Lemma entries_app l1 l2 : entries (l1 ++ l2) = entries l1 ++ entries l2.
Proof.
  induction l1 as [|cb l1 IH]; [reflexivity|]. simpl.
  by rewrite IH, app_assoc.
Qed.

Lemma errs_app l1 l2 : errs (l1 ++ l2) = (errs l1 + errs l2)%nat.
Proof. induction l1 as [|cb l1 IH]; [reflexivity|]. simpl. lia. Qed.

Lemma entries_tokens toks :
  entries (map (λ tok, append_cb tok (py "bot")) toks) = bot_tokens toks.
Proof. induction toks as [|tok toks IH]; [reflexivity|]. simpl. by rewrite IH. Qed.

Lemma errs_tokens toks :
  errs (map (λ tok, append_cb tok (py "bot")) toks) = 0%nat.
Proof. induction toks as [|tok toks IH]; [reflexivity|]. exact IH. Qed.

Ltac queue_with q k :=
  exists q; split; [|split; [|split; [|split; [|exists k; split]]]].

Section Invariant.

Variable e : exn.
Variable u0 : UI.
Variable goal : list (pystr * pystr).

Lemma worker_inv_worker_turn c :
  worker_inv frame e u0 goal c →
  worker_inv frame e u0 goal (worker_step frame c.2 c.1).
Proof.
  destruct c as [u w].
  intros [Ha Hc Hw Hcell Hbtn Hlog Hrep (q & Hq & Hours & Htr & Hdone & k & Hdia & Hk)].
  simpl in *. rewrite <- Hc in Hq.
  destruct w as [[|tok rest] fin| e' | | r | r | r]; simpl in Hw;
    try subst fin; try subst e'; try subst r; simpl worker_step.
  - (* the stream raises *)
    simpl to_come in *. constructor; simpl; try assumption; [reflexivity|]. rewrite <- Hc.
    queue_with q k; assumption.
  - (* a token *)
    rewrite (after_0_at_time _ q u Ha Hq).
    assert (Heq : (q ++ [append_cb tok (py "bot")])
                    ++ to_come frame (Streaming rest (Some e))
                  = q ++ to_come frame (Streaming (tok :: rest) (Some e)))
      by (rewrite <- app_assoc; reflexivity).
    simpl to_come in *.
    constructor; simpl; try assumption; [reflexivity|].
    rewrite <- Hc. queue_with (q ++ [append_cb tok (py "bot")]) k; rewrite ?Heq;
      try assumption; try reflexivity.
    apply Forall_app. split; [assumption|]. repeat constructor.
  - (* [e] is bound *)
    simpl to_come in *. constructor; simpl; try assumption; try exact I.
    + right. apply lookup_insert_eq.
    + rewrite <- Hc. queue_with q k; assumption.
  - (* [err] is queued *)
    rewrite (after_0_at_time _ q u Ha Hq).
    assert (Heq : (q ++ [err_cb frame]) ++ to_come frame (Leaving (Ok tt))
                  = q ++ to_come frame Handled)
      by (rewrite <- app_assoc; reflexivity).
    simpl to_come in *.
    constructor; simpl; try assumption; [reflexivity|].
    rewrite <- Hc. queue_with (q ++ [err_cb frame]) k; rewrite ?Heq;
      try assumption; try reflexivity.
    apply Forall_app. split; [assumption|]. repeat constructor.
  - (* [e] is unbound *)
    simpl to_come in *. constructor; simpl; try assumption; try reflexivity.
    + left. apply lookup_delete_eq.
    + rewrite <- Hc. queue_with q k; assumption.
  - (* [done] is queued *)
    rewrite (after_0_at_time _ q u Ha Hq).
    assert (Heq : (q ++ [done_cb]) ++ to_come frame (Finished (Ok tt))
                  = q ++ to_come frame (Closing (Ok tt)))
      by (rewrite <- app_assoc; reflexivity).
    simpl to_come in *.
    constructor; simpl; try assumption; [reflexivity|].
    rewrite <- Hc. queue_with (q ++ [done_cb]) k; rewrite ?Heq;
      try assumption; try reflexivity.
    apply Forall_app. split; [assumption|]. repeat constructor.
  - (* the worker is over *)
    simpl to_come in *. constructor; simpl; try assumption; [reflexivity|]. rewrite <- Hc.
    queue_with q k; assumption.
Qed.

Lemma worker_inv_loop_turn c :
  worker_inv frame e u0 goal c →
  worker_inv frame e u0 goal (mainloop_step b c.1, c.2).
Proof.
  destruct c as [u w].
  intros [Ha Hc Hw Hcell Hbtn Hlog Hrep (q & Hq & Hours & Htr & Hdone & k & Hdia & Hk)].
  simpl in *. rewrite <- Hc in Hq.
  change (mainloop_step b u) with (step b rs Tick u).
  destruct q as [|cb q].
  - (* nothing is due *)
    simpl. unfold mainloop_step. rewrite Hq. simpl.
    constructor; simpl; try assumption.
    rewrite <- Hc. queue_with (@nil callback) k; assumption.
  - apply Forall_cons in Hours as [Hcb Hours].
    destruct cb as [| |text tag|f|]; simpl in Hcb; try contradiction.
    + (* a token is appended *)
      rewrite (tick_append b rs text tag (at_time (clock u) q) u Ha Hq).
      constructor; simpl; try assumption.
      rewrite <- Hc. queue_with q k; try assumption; try reflexivity.
      rewrite <- app_assoc. exact Htr.
    + (* [err] *)
      subst f. destruct Hcell as [Hcell | Hcell].
      * rewrite (tick_err_unbound b rs frame (at_time (clock u) q) u Ha Hq Hcell).
        constructor; simpl; try assumption; [left; assumption|].
        rewrite <- Hc. queue_with q k; try assumption; try reflexivity.
        -- rewrite <- app_assoc. exact Htr.
        -- simpl in Hk. lia.
      * rewrite (tick_err_bound b rs frame e (at_time (clock u) q) u Ha Hq Hcell).
        constructor; simpl; try assumption; [right; assumption|].
        rewrite <- Hc. queue_with q (S k); try assumption; try reflexivity.
        -- rewrite <- app_assoc. exact Htr.
        -- rewrite Hdia, replicate_S_end, app_assoc. reflexivity.
        -- simpl in Hk. lia.
    + (* [done] *)
      destruct Hbtn as [old Hold].
      rewrite (tick_done b rs old (at_time (clock u) q) u Ha Hq Hold).
      constructor; simpl; try assumption; [eauto|].
      rewrite <- Hc. queue_with q k; try assumption; try reflexivity.
      * rewrite <- app_assoc. exact Htr.
      * intros _. split; reflexivity.
Qed.

Lemma worker_inv_interleave sched : ∀ c,
  worker_inv frame e u0 goal c →
  worker_inv frame e u0 goal (interleave b frame sched c).
Proof.
  induction sched as [|t sched IH]; intros c H; [exact H|].
  apply IH. destruct t; [apply worker_inv_worker_turn | apply worker_inv_loop_turn];
    exact H.
Qed.

End Invariant.

(** Under every schedule of worker and event loop: once the worker is over
    and the queue is empty, the transcript holds the tokens, the error
    notice and the line feed, the streaming flag is false and the send
    button enabled, nothing is logged or reported, and at most one error
    box has been shown. *)
Lemma worker_failure_under_any_schedule toks e old u sched :
  alive u = true → timers u = [] → send_btn u = Some old →
  frames u !! frame = None →
  let c := interleave b frame sched (u, Streaming toks (Some e)) in
  (∃ r, c.2 = Finished r) → timers c.1 = [] →
  c.2 = Finished (Ok tt)
  ∧ transcript c.1
    = transcript u ++ bot_tokens toks
        ++ [(ERROR_NOTICE, py "sys"); (LF, py "bot")]
  ∧ streaming c.1 = Some false
  ∧ send_btn c.1 = Some normal
  ∧ log c.1 = log u
  ∧ reported c.1 = reported u
  ∧ (dialogs c.1 = dialogs u
     ∨ dialogs c.1 = dialogs u ++ [(py "Welcome Error", exn_msg e)]).
Proof.
  intros Ha Hq Hb Hf c [r Hr] Hempty.
  assert (H0 : worker_inv frame e u
                 (transcript u ++ bot_tokens toks
                    ++ [(ERROR_NOTICE, py "sys"); (LF, py "bot")])
                 (u, Streaming toks (Some e))).
  { constructor; simpl; try reflexivity; try assumption; [auto | eauto |].
    queue_with (@nil callback) 0%nat; try reflexivity.
    - rewrite Hq. reflexivity.
    - constructor.
    - simpl. rewrite entries_app, entries_tokens. reflexivity.
    - simpl. rewrite existsb_app. simpl. rewrite orb_true_r. discriminate.
    - simpl. rewrite app_nil_r. reflexivity.
    - simpl. rewrite errs_app, errs_tokens. simpl. lia. }
  apply (worker_inv_interleave _ _ _ sched) in H0. fold c in H0.
  destruct H0 as [_ _ Hw _ _ Hlog Hrep (q & Hq' & _ & Htr & Hdone & k & Hdia & Hk)].
  rewrite Hr in *. simpl in Hw. subst r.
  rewrite Hempty in Hq'. destruct q as [|cb q]; [|discriminate].
  simpl in *. rewrite app_nil_r in Htr.
  destruct (Hdone eq_refl) as [Hs Hbn].
  repeat split; try assumption.
  destruct k as [|[|k]]; [left|right|lia]; rewrite Hdia; simpl;
    [apply app_nil_r | reflexivity].
Qed.

End Interleaving.

(** The error box hangs on the schedule. On the window [hello] with the seed
    fired, let the worker queue [err] and the event loop run it before the
    worker leaves its handler: [e] is still bound and the box is shown. *)
Lemma error_box_when_err_overtakes_worker :
  let seeding := Some (_start_seeding true) in
  let u := run seeding failing_backend [Tick] (hello_dismissed seeding) in
  let c := interleave seeding 0
             [Worker; Worker; Worker; Worker; Loop; Loop; Worker; Worker;
              Loop]
             (u, worker_start failing_backend (py "Hello")) in
  c.2 = Finished (Ok tt) ∧ timers c.1 = []
  ∧ dialogs c.1 = [(py "Welcome Error", py "boom")]
  ∧ transcript c.1
    = transcript u
        ++ [(py "Hi", py "bot"); (ERROR_NOTICE, py "sys"); (LF, py "bot")].
Proof. vm_compute. repeat split. Qed.

(** An exception of the dispatch never leaves [_start_seeding], and nothing
    is logged. *)
Lemma start_seeding_swallows bw u :
  (_start_seeding bw u).2 = Ok tt
  ∧ log (_start_seeding bw u).1 = log u
  ∧ reported (_start_seeding bw u).1 = reported u.
Proof.
  unfold _start_seeding, thread_start. unfold_m.
  destruct (flag (streaming u) || negb (truthy (_seed_text u)));
    [repeat split|].
  destruct (alive u) eqn:Ha; [|repeat split]. crunch.
  destruct (send_btn u) eqn:Hb; crunch; rewrite ?Ha; crunch;
    destruct bw; crunch; try (repeat split; fail);
    destruct (spawnable u); repeat split.
Qed.

(** C6, as the code has it. An exception raised while the worker is
    dispatched does not leave [_start_seeding], and an exception raised by
    the backend does not leave [_seed_worker]; neither is logged or
    reported. The backend's exception is turned into the failure
    completion: once the event loop has run the callbacks the worker
    queued, the transcript holds the tokens, the error notice and a line
    feed, the streaming flag is false and the send button is enabled. The
    same holds however the calls of the worker and the turns of the event
    loop are interleaved, once the worker is over and the queue is empty. *)
Theorem seeding_failures_are_contained
    (bw : bool) (b : option (M unit))
    (rs : pystr → list pystr * option exn) (frame : nat)
    (text : pystr) (toks : list pystr) (e : exn) (old : btn_state)
    (u : UI) :
  alive u = true → timers u = [] → send_btn u = Some old →
  frames u !! frame = None →
  rs text = (toks, Some e) →
  (∀ v : UI,
      (_start_seeding bw v).2 = Ok tt
      ∧ log (_start_seeding bw v).1 = log v
      ∧ reported (_start_seeding bw v).1 = reported v)
  ∧ (let r := _seed_worker rs frame text u in
     let u' := run b rs (drain r.1) r.1 in
     r.2 = Ok tt
     ∧ log r.1 = log u
     ∧ transcript u'
       = transcript u ++ bot_tokens toks
           ++ [(ERROR_NOTICE, py "sys"); (LF, py "bot")]
     ∧ streaming u' = Some false
     ∧ send_btn u' = Some normal
     ∧ log u' = log u
     ∧ reported u' = reported u)
  ∧ (∀ sched,
       let c := interleave b frame sched (u, worker_start rs text) in
       (∃ r, c.2 = Finished r) → timers c.1 = [] →
       c.2 = Finished (Ok tt)
       ∧ transcript c.1
         = transcript u ++ bot_tokens toks
             ++ [(ERROR_NOTICE, py "sys"); (LF, py "bot")]
       ∧ streaming c.1 = Some false
       ∧ send_btn c.1 = Some normal
       ∧ log c.1 = log u
       ∧ reported c.1 = reported u).
Proof.
  intros Ha Hq Hb Hf Hrs. split; [intros v; apply start_seeding_swallows|].
  split.
  - destruct (worker_failure_completes b rs frame text toks e old u
                Ha Hq Hb Hrs)
      as (H1 & _ & H2 & H3 & H4 & H5 & _ & H6 & H7 & _).
    cbv zeta. repeat split; assumption.
  - intros sched. cbv zeta. unfold worker_start. rewrite Hrs.
    intros Hfin Hempty.
    destruct (worker_failure_under_any_schedule b rs frame toks e old u sched
                Ha Hq Hb Hf Hfin Hempty)
      as (H1 & H2 & H3 & H4 & H5 & H6 & _).
    repeat split; assumption.
Qed.

Lemma seeding_failures_are_contained_witness :
  let seeding := Some (_start_seeding true) in
  let u := run seeding failing_backend [Tick] (hello_dismissed seeding) in
  let r := _seed_worker failing_backend 0 (py "Hello") u in
  streaming u = Some true
  ∧ streaming (run seeding failing_backend (drain r.1) r.1) = Some false.
Proof.
  intros seeding u r. split; [reflexivity|].
  destruct (seeding_failures_are_contained true seeding failing_backend
              0%nat (py "Hello") [py "Hi"] (RuntimeError "boom") disabled u
              eq_refl eq_refl eq_refl eq_refl eq_refl)
    as (_ & (_ & _ & _ & H & _) & _).
  exact H.
Defined.

(** C6 as the claim states it fails. On the window [hello] with
    [_start_seeding] bound to the function of that name: when no thread can
    be started, the firing ends with nothing logged or reported, the
    streaming flag left true, the send button left disabled and no callback
    queued that would reset them; and when the backend fails, the failure
    runs through the completion with nothing logged. *)
Lemma dispatch_failure_is_silent_and_stuck :
  let seeding := Some (_start_seeding true) in
  let u := run seeding failing_backend [Elapse 50; Dismiss; Tick; Tick]
             (set_spawnable false hello) in
  let v := run seeding failing_backend
             ([Elapse 50; Dismiss; Tick; Tick; Work 0%nat] ++ ticks 3)
             hello in
  (fired u = 1%nat ∧ threads u = [] ∧ log u = [] ∧ reported u = []
   ∧ streaming u = Some true ∧ send_btn u = Some disabled ∧ timers u = [])
  ∧ (threads v = [py "Hello"] ∧ streaming v = Some false
     ∧ log v = [] ∧ reported v = []).
Proof. vm_compute. repeat split. Qed.

(** C7. On the window [hello] with [_start_seeding] bound to the function of
    that name, the seed fires and the worker runs against a backend that
    produces ["Hi"] and raises. The worker queues three callbacks and has
    unbound [e] when it ends. The event loop then appends the token, the
    error notice and the line feed, resets the streaming flag and enables
    the send button, but shows no error box: [str(e)] in [err] raises
    NameError, which [err] swallows. *)
Theorem error_box_is_not_shown :
  let seeding := Some (_start_seeding true) in
  let u := run seeding failing_backend [Tick] (hello_dismissed seeding) in
  let u1 := step seeding failing_backend (Work 0%nat) u in
  let u2 := run seeding failing_backend (drain u1) u1 in
  threads u = [py "Hello"]
  ∧ timers u1
    = at_time 300 [append_cb (py "Hi") (py "bot"); err_cb 0%nat; done_cb]
  ∧ frames u1 !! 0%nat = None
  ∧ transcript u2
    = transcript u
        ++ [(py "Hi", py "bot"); (ERROR_NOTICE, py "sys"); (LF, py "bot")]
  ∧ streaming u2 = Some false
  ∧ send_btn u2 = Some normal
  ∧ dialogs u2 = [].
Proof. vm_compute. repeat split. Qed.

(* ===================================================================== *)
(** * Proofs: the launcher list *)
(* ===================================================================== *)

Lemma filter_all {A} (P : A → Prop) `{∀ x, Decision (P x)} (l : list A) :
  (∀ x, x ∈ l → P x) → filter P l = l.
Proof.
  induction l as [|x l IH]; intros Hl; [reflexivity|].
  rewrite filter_cons_True by (apply Hl; left).
  f_equal. apply IH. intros y Hy. apply Hl. by right.
Qed.

Lemma filter_none {A} (P : A → Prop) `{∀ x, Decision (P x)} (l : list A) :
  (∀ x, x ∈ l → ¬ P x) → filter P l = [].
Proof.
  induction l as [|x l IH]; intros Hl; [reflexivity|].
  rewrite filter_cons_False by (apply Hl; left).
  apply IH. intros y Hy. apply Hl. by right.
Qed.

Lemma delete_all_rows ids : ∀ t,
  rows (foldl (λ t iid, tree_delete iid t) t ids)
  = filter (λ r, r.1 ∉ ids) (rows t)
  ∧ selection (foldl (λ t iid, tree_delete iid t) t ids)
    = filter (λ i, i ∉ ids) (selection t)
  ∧ counter (foldl (λ t iid, tree_delete iid t) t ids) = counter t.
Proof.
  induction ids as [|iid ids IH]; intros t; simpl.
  - repeat split; symmetry; apply filter_all; intros x _ Hx;
      by apply elem_of_nil in Hx.
  - destruct (IH (tree_delete iid t)) as (-> & -> & ->). simpl.
    rewrite !list_filter_filter.
    repeat split; apply list_filter_iff; intros x;
      rewrite not_elem_of_cons; tauto.
Qed.

Lemma clear_rows_spec t :
  rows (clear_rows t) = []
  ∧ selection (clear_rows t)
    = filter (λ i, i ∉ get_children t) (selection t)
  ∧ counter (clear_rows t) = counter t.
Proof.
  unfold clear_rows. destruct (delete_all_rows (get_children t) t)
    as (-> & -> & ->).
  repeat split. apply filter_none. intros r Hr Hn. apply Hn.
  unfold get_children. apply list_elem_of_fmap. eauto.
Qed.

Lemma fill_rows_spec st names : ∀ t m,
  let r := fill_rows st names (t, m) in
  rows r.1
  = rows t ++ imap (λ k n, ((counter t + k)%nat, (n, created_of st n))) names
  ∧ selection r.1 = selection t
  ∧ counter r.1 = (counter t + length names)%nat
  ∧ ∀ j, r.2 !! j
         = match names !! (j - counter t)%nat with
           | Some n => if decide (counter t ≤ j)%nat then Some n else m !! j
           | None => m !! j
           end.
Proof.
  induction names as [|n names IH]; intros t m; cbn zeta.
  - simpl. rewrite app_nil_r.
    split; [reflexivity|]. split; [reflexivity|]. split; [lia|].
    intros j. reflexivity.
  - simpl fill_rows.
    destruct (IH {| rows := rows t ++ [(counter t, (n, created_of st n))];
                    selection := selection t;
                    counter := S (counter t) |} (<[counter t := n]> m))
      as (Hr & Hs & Hc & Hm).
    cbn zeta in Hr, Hs, Hc, Hm. simpl rows in Hr. simpl counter in Hr, Hc, Hm.
    simpl selection in Hs.
    split; [|split; [|split]].
    + rewrite Hr, <- app_assoc. f_equal. simpl. rewrite Nat.add_0_r. f_equal.
      apply imap_ext. intros k x _. simpl. f_equal. lia.
    + exact Hs.
    + rewrite Hc. simpl. lia.
    + intros j. rewrite Hm.
      destruct (decide (j < counter t)%nat) as [Hlt|Hge].
      * replace (j - S (counter t))%nat with 0%nat by lia.
        replace (j - counter t)%nat with 0%nat by lia. simpl.
        rewrite lookup_insert_ne by lia.
        destruct (names !! 0%nat); repeat case_decide; try lia; reflexivity.
      * destruct (decide (j = counter t)) as [->|Hne].
        -- replace (counter t - S (counter t))%nat with 0%nat by lia.
           rewrite Nat.sub_diag. simpl. rewrite lookup_insert_eq.
           destruct (names !! 0%nat); repeat case_decide; try lia; reflexivity.
        -- replace (j - counter t)%nat with (S (j - S (counter t))) by lia.
           simpl. rewrite lookup_insert_ne by lia.
           destruct (names !! (j - S (counter t))%nat);
             repeat case_decide; try lia; reflexivity.
Qed.

Section FrontpageProofs.

Variable super_refresh : Launcher → Launcher * result unit.
Variable run_program : pystr → Launcher → Launcher * result unit.

(** What a refresh leaves on a live window that has the tree. *)
Lemma refresh_tree_result s t :
  _frontpage_tree s = Some t → alive (win s) = true →
  let names := list_names (program_store s) in
  let r := _refresh_frontpage_list super_refresh s in
  r.2 = Ok tt ∧ win r.1 = win s ∧ infos r.1 = infos s
  ∧ program_store r.1 = program_store s
  ∧ empty_label r.1 = match names with [] => NO_PROGRAMS | _ => [] end
  ∧ ∃ t', _frontpage_tree r.1 = Some t'
      ∧ rows t'
        = imap (λ k n, ((counter t + k)%nat,
                        (n, created_of (program_store s) n))) names
      ∧ selection t' = filter (λ i, i ∉ get_children t) (selection t)
      ∧ counter t' = (counter t + length names)%nat
      ∧ ∀ j, _fp_mapping r.1 !! j
             = if decide (counter t ≤ j)%nat
               then names !! (j - counter t)%nat else None.
Proof.
  intros Ht Ha names r. subst r. unfold _refresh_frontpage_list.
  rewrite Ht, Ha. fold names.
  destruct (clear_rows_spec t) as (Hr0 & Hs0 & Hc0).
  destruct (fill_rows_spec (program_store s) names (clear_rows t) ∅)
    as (Hr & Hs & Hc & Hm).
  cbn zeta in Hr, Hs, Hc, Hm.
  destruct (fill_rows (program_store s) names (clear_rows t, ∅)) as [t' m].
  simpl in *. repeat split.
  exists t'. rewrite Hr, Hs, Hc, Hr0, Hs0, Hc0. repeat split.
  intros j. rewrite Hm, Hc0, lookup_empty.
  destruct (names !! (j - counter t)%nat), (decide (counter t ≤ j)%nat);
    reflexivity.
Qed.

(** Rows numbered from [c] on, one per name, and the mapping that goes with
    them: the names read back in order, the ids are distinct, and the
    mapping matches the rows. *)
Lemma numbered_rows_listing (st : ProgramStore) (c : nat)
    (names : list pystr) (t' : treeview) (m : gmap nat pystr) :
  rows t' = imap (λ k n, ((c + k)%nat, (n, created_of st n))) names →
  (∀ j, m !! j = if decide (c ≤ j)%nat then names !! (j - c)%nat else None) →
  row_names t' = names
  ∧ NoDup (get_children t')
  ∧ mapping_matches t' m.
Proof.
  intros Hr Hm.
  assert (Hk : get_children t' = (λ k, (c + k)%nat) <$> seq 0 (length names)).
  { unfold get_children. rewrite Hr. apply list_eq. intros i.
    rewrite !list_lookup_fmap, list_lookup_imap.
    destruct (names !! i) as [n|] eqn:E; simpl.
    - rewrite lookup_seq_lt by (by eapply lookup_lt_Some). reflexivity.
    - rewrite lookup_seq_ge by (by apply lookup_ge_None). reflexivity. }
  split; [|split; [|split]].
  - unfold row_names. rewrite Hr. apply list_eq. intros i.
    rewrite list_lookup_fmap, list_lookup_imap.
    destruct (names !! i); reflexivity.
  - rewrite Hk. apply NoDup_fmap_2; [|apply NoDup_seq]. intros x y. lia.
  - intros iid v Hv. rewrite Hr in Hv.
    apply list_elem_of_lookup in Hv as [k Hv].
    rewrite list_lookup_imap in Hv.
    destruct (names !! k) as [n|] eqn:E; [|discriminate].
    simpl in Hv. injection Hv as <- <-. rewrite Hm.
    rewrite decide_True by lia.
    replace (c + k - c)%nat with k by lia. exact E.
  - intros iid [n Hn]. rewrite Hm in Hn.
    destruct (decide (c ≤ iid)%nat) as [Hle|]; [|discriminate].
    rewrite Hk. apply list_elem_of_fmap. exists (iid - c)%nat.
    split; [lia|]. apply elem_of_seq. apply lookup_lt_Some in Hn. lia.
Qed.

(** X1. After [_refresh_frontpage_list] on a live window with the tree, the
    tree has one row per name of the store, in the store's order, with the
    record's [created_at] beside it ([""] when there is no record or no
    such attribute); the item ids are distinct; the mapping takes every
    row's item id to the row's name and has no other key; the label is
    empty exactly when there is a name; the window itself is untouched. *)
Theorem refresh_lists_the_store (s : Launcher) (t : treeview) :
  _frontpage_tree s = Some t → alive (win s) = true →
  let names := list_names (program_store s) in
  let r := _refresh_frontpage_list super_refresh s in
  r.2 = Ok tt ∧ win r.1 = win s
  ∧ (empty_label r.1 = [] ↔ names ≠ [])
  ∧ ∃ t', _frontpage_tree r.1 = Some t'
      ∧ row_names t' = names
      ∧ map (λ r, r.2.2) (rows t') = map (created_of (program_store s)) names
      ∧ NoDup (get_children t')
      ∧ mapping_matches t' (_fp_mapping r.1).
Proof.
  intros Ht Ha names r.
  destruct (refresh_tree_result s t Ht Ha)
    as (Hok & Hw & _ & _ & Hl & t' & Ht' & Hr & _ & _ & Hm).
  fold names r in Hok, Hw, Hl, Ht', Hr, Hm.
  split; [exact Hok|]. split; [exact Hw|]. split.
  { rewrite Hl. destruct names; [|split; intros; [discriminate|reflexivity]].
    split; [discriminate | congruence]. }
  exists t'. split; [exact Ht'|].
  destruct (numbered_rows_listing _ _ _ _ _ Hr Hm) as (Hn & Hd & Hmm).
  split; [exact Hn|]. split; [|split; [exact Hd | exact Hmm]].
  rewrite Hr. apply list_eq. intros i.
  rewrite !list_lookup_fmap, list_lookup_imap.
  destruct (names !! i); reflexivity.
Qed.

(** X2. Refresh, select, read back: after a refresh, selecting the row at
    any position of the list makes [_get_selected_program_name] return the
    store's name at that position, also when several programs share a
    name. *)
Theorem select_after_refresh (s : Launcher) (t : treeview) (i : nat)
    (n : pystr) :
  _frontpage_tree s = Some t → alive (win s) = true →
  list_names (program_store s) !! i = Some n →
  let s' := (_refresh_frontpage_list super_refresh s).1 in
  ∃ t' iid,
    _frontpage_tree s' = Some t'
    ∧ get_children t' !! i = Some iid
    ∧ _get_selected_program_name
        (set_frontpage_tree (Some (tree_select [iid] t')) s')
      = Ok (Some n).
Proof.
  intros Ht Ha Hn s'.
  destruct (refresh_tree_result s t Ht Ha)
    as (_ & Hw & _ & _ & _ & t' & Ht' & Hr & _ & _ & Hm).
  fold s' in Hw, Ht', Hm.
  assert (Hi : get_children t' !! i = Some (counter t + i)%nat).
  { unfold get_children. rewrite Hr, list_lookup_fmap, list_lookup_imap, Hn.
    reflexivity. }
  exists t', (counter t + i)%nat. split; [exact Ht'|]. split; [exact Hi|].
  unfold _get_selected_program_name. simpl. rewrite Hw, Ha.
  rewrite filter_cons_True by (eapply list_elem_of_lookup_2; exact Hi).
  simpl. rewrite Hm, decide_True by lia.
  replace (counter t + i - counter t)%nat with i by lia. by rewrite Hn.
Qed.


(** X4. A refresh drops the selection: when the selected rows were rows of
    the tree, [_get_selected_program_name] returns [None] right after
    [_refresh_frontpage_list], and [_run_selected_program] only shows the
    hint. *)
Theorem refresh_drops_selection (s : Launcher) (t : treeview) :
  _frontpage_tree s = Some t → alive (win s) = true →
  (∀ iid, iid ∈ selection t → iid ∈ get_children t) →
  let s' := (_refresh_frontpage_list super_refresh s).1 in
  _get_selected_program_name s' = Ok None
  ∧ _run_selected_program run_program s' = (show_select_hint s', Ok tt).
Proof.
  intros Ht Ha Hsel s'.
  destruct (refresh_tree_result s t Ht Ha)
    as (_ & Hw & _ & _ & _ & t' & Ht' & _ & Hs & _).
  fold s' in Hw, Ht'.
  assert (Hnone : selection t' = []).
  { rewrite Hs. apply filter_none. intros iid Hin Hout. auto. }
  unfold _run_selected_program, _get_selected_program_name.
  rewrite Ht', Hw, Ha, Hnone. split; reflexivity.
Qed.

(** X5. [_run_selected_program] on a selected row with a name dismisses the
    launcher before anything else: [_run_program_by_name] gets the name on
    a window where, if a seed is configured, the seed is pending and its
    first readiness check is queued the configured delay ahead. When the
    dismissal raises, the program is not run. *)
Theorem run_dismisses_first (s : Launcher) (t : treeview) (iid : nat)
    (rest : list nat) (n : pystr) :
  _frontpage_tree s = Some t → alive (win s) = true →
  selection t = iid :: rest → _fp_mapping s !! iid = Some n → n ≠ [] →
  let h := _hide_frontpage (win s) in
  (h.2 = Ok tt →
   _run_selected_program run_program s = run_program n (set_win h.1 s))
  ∧ (∀ e, h.2 = Raise e →
     _run_selected_program run_program s = (set_win h.1 s, Raise e))
  ∧ (truthy (_seed_text (win s)) = true →
     _pending_welcome_seed h.1 = Some true
     ∧ timers h.1
       = insert_timer
           (clock (win s) + Z.max 0 (default 250 (_seed_delay_ms (win s))),
            try_fire_cb) (timers (win s))).
Proof.
  intros Ht Ha Hsel Hm Hn h.
  unfold _run_selected_program, _get_selected_program_name.
  rewrite Ht, Ha, Hsel, Hm. rewrite (truthy_Some n Hn). simpl negb. cbv iota.
  fold h. destruct n as [|c n]; [congruence|]. simpl or_else.
  split; [|split].
  - intros Hok. destruct h as [u [[]|e]]; [reflexivity | discriminate].
  - intros e He. destruct h as [u [[]|e']]; simpl in He; [discriminate|].
    by injection He as ->.
  - intros Hseed. split.
    + apply hide_frontpage_marks_pending. exact Hseed.
    + unfold h. rewrite (hide_frontpage_seeded (win s) Hseed Ha). reflexivity.
Qed.

End FrontpageProofs.

Lemma refresh_lists_the_store_witness :
  ∃ t', _frontpage_tree (_refresh_frontpage_list no_refresh stale_launcher).1
        = Some t'
      ∧ row_names t' = [py "a"; py "b"; py "a"]
      ∧ map (λ r, r.2.2) (rows t') = [py "2024"; []; py "2024"].
Proof.
  destruct (refresh_lists_the_store no_refresh stale_launcher _
              eq_refl eq_refl)
    as (_ & _ & _ & t' & Ht & Hn & Hc & _).
  exists t'. split; [exact Ht|]. split; [exact Hn | exact Hc].
Defined.

Lemma select_after_refresh_witness :
  let s' := (_refresh_frontpage_list no_refresh stale_launcher).1 in
  ∃ t' iid,
    _frontpage_tree s' = Some t'
    ∧ get_children t' !! 2%nat = Some iid
    ∧ _get_selected_program_name
        (set_frontpage_tree (Some (tree_select [iid] t')) s')
      = Ok (Some (py "a")).
Proof.
  exact (select_after_refresh no_refresh stale_launcher _ 2%nat (py "a")
           eq_refl eq_refl eq_refl).
Defined.


Lemma refresh_drops_selection_witness :
  _get_selected_program_name
    (_refresh_frontpage_list no_refresh stale_launcher).1 = Ok None.
Proof.
  refine (proj1 (refresh_drops_selection no_refresh no_run stale_launcher _
                   eq_refl eq_refl _)).
  intros iid Hin. exact Hin.
Defined.

Lemma run_dismisses_first_witness :
  _run_selected_program no_run stale_launcher
  = (set_win (_hide_frontpage hello).1 stale_launcher, Ok tt)
  ∧ _pending_welcome_seed (_hide_frontpage hello).1 = Some true.
Proof.
  destruct (run_dismisses_first no_run stale_launcher _ 3%nat [] (py "old")
              eq_refl eq_refl eq_refl eq_refl)
    as (Hrun & _ & Hseed); [discriminate|].
  split; [exact (Hrun eq_refl) | exact (proj1 (Hseed eq_refl))].
Defined.

(* ===================================================================== *)
(** * Proofs: more on the resolver *)
(* ===================================================================== *)

(** The resolver looks at one variable only. *)
Lemma resolve_one_variable w a env :
  env !! env_name a = environ w !! env_name a →
  _resolve_seed_from_args_env (with_environ env w) a
  = _resolve_seed_from_args_env w a.
Proof.
  intros H. unfold _resolve_seed_from_args_env, read_seed_file, from_env.
  simpl. rewrite H. reflexivity.
Qed.

(** X6. When [--seed-env NAME] names a variable other than
    [CHATBOT_SEED_PROMPT], the default variable plays no part: setting it to
    any value or removing it changes neither the seed returned nor what is
    logged. There is no falling back from the named variable to the default
    one. *)
Theorem override_shuts_out_default (w : World) (a : Args) (name : pystr) :
  seed_env a = Some name → name ≠ [] → name ≠ DEFAULT_ENV →
  (∀ v, _resolve_seed_from_args_env
          (with_environ (<[DEFAULT_ENV := v]> (environ w)) w) a
        = _resolve_seed_from_args_env w a)
  ∧ _resolve_seed_from_args_env
      (with_environ (delete DEFAULT_ENV (environ w)) w) a
    = _resolve_seed_from_args_env w a.
Proof.
  intros He Hn Hd.
  assert (Hname : env_name a = name).
  { unfold env_name. rewrite He. destruct name; [congruence | reflexivity]. }
  split; [intros v|]; apply resolve_one_variable; rewrite Hname.
  - by apply lookup_insert_ne.
  - by apply lookup_delete_ne.
Qed.

Lemma override_shuts_out_default_witness :
  _resolve_seed_from_args_env
    (with_environ (delete DEFAULT_ENV (environ all_sources)) all_sources)
    env_flag
  = _resolve_seed_from_args_env all_sources env_flag.
Proof.
  refine (proj2 (override_shuts_out_default all_sources env_flag
                   (py "MY_VAR") eq_refl _ _)); discriminate.
Defined.

(** X7. The resolver logs nothing unless the seed file was tried and could
    not be read: a log record means there is no [--skip-seed], no direct
    text, and a non-empty path whose [exists()] or [read_text()] raised; the
    record is the only one and carries that exception. *)
Theorem resolver_logs_only_read_failures (w : World) (a : Args) :
  (_resolve_seed_from_args_env w a).1 ≠ [] →
  skip_seed a = false ∧ truthy (seed_prompt a) = false
  ∧ ∃ p e, seed_file a = Some p ∧ p ≠ []
      ∧ (fs w !! p = Some (Entry (Raise e)) ∨ fs w !! p = Some (NoStat e))
      ∧ (_resolve_seed_from_args_env w a).1 = [log_read_failure e].
Proof.
  unfold _resolve_seed_from_args_env, read_seed_file.
  destruct (skip_seed a); [simpl; congruence|].
  destruct (truthy (seed_prompt a)); [simpl; congruence|].
  destruct (seed_file a) as [[|c p]|]; try (simpl; congruence).
  destruct (fs w !! (c :: p)) as [[[txt|e]|e]|] eqn:E; try (simpl; congruence);
    intros _; (split; [reflexivity|]; split; [reflexivity|]);
    exists (c :: p), e; repeat split; auto; discriminate.
Qed.

Lemma resolver_logs_only_read_failures_witness :
  ∃ p e, seed_file (file_flag (py "seed.txt")) = Some p
    ∧ (fs env_hi !! p = Some (Entry (Raise e))
       ∨ fs env_hi !! p = Some (NoStat e)).
Proof.
  destruct (resolver_logs_only_read_failures env_hi
              (file_flag (py "seed.txt")))
    as (_ & _ & p & e & Hp & _ & Hfs & _); [discriminate|].
  exists p, e. split; assumption.
Defined.

Lemma from_env_not_empty w a : from_env w a ≠ Some [].
Proof.
  unfold from_env. destruct (environ w !! env_name a) as [[|c v]|];
    discriminate.
Qed.

(** X8. The resolver returns the empty string only as the content of an
    existing seed file: a direct text or a variable's value that is empty is
    never returned. *)
Theorem empty_seed_only_from_file (w : World) (a : Args) :
  (_resolve_seed_from_args_env w a).2 = Some [] →
  skip_seed a = false ∧ truthy (seed_prompt a) = false
  ∧ ∃ p, seed_file a = Some p ∧ p ≠ [] ∧ fs w !! p = Some (Entry (Ok [])).
Proof.
  pose proof (from_env_not_empty w a) as Hne.
  unfold _resolve_seed_from_args_env, read_seed_file.
  destruct (skip_seed a); [simpl; congruence|].
  destruct (truthy (seed_prompt a)) eqn:Hp.
  { simpl. intros H. rewrite H in Hp. discriminate. }
  destruct (seed_file a) as [[|c p]|]; try (simpl; congruence).
  destruct (fs w !! (c :: p)) as [[[txt|e]|e]|] eqn:E; try (simpl; congruence).
  simpl. intros [= ->]. split; [reflexivity|]. split; [reflexivity|].
  exists (c :: p). split; [reflexivity|]. split; [discriminate | exact E].
Qed.

Lemma empty_seed_only_from_file_witness :
  ∃ p, seed_file (file_flag (py "empty.txt")) = Some p
     ∧ fs (with_environ (environ env_hi)
             {| fs := {[ py "empty.txt" := Entry (Ok []) ]};
                environ := ∅ |}) !! p
       = Some (Entry (Ok [])).
Proof.
  destruct (empty_seed_only_from_file
              (with_environ (environ env_hi)
                 {| fs := {[ py "empty.txt" := Entry (Ok []) ]};
                    environ := ∅ |})
              (file_flag (py "empty.txt")))
    as (_ & _ & p & Hp & _ & Hfs); [vm_compute; reflexivity|].
  exists p. split; assumption.
Defined.

(* ===================================================================== *)
(** * Proofs: from the command line to the window *)
(* ===================================================================== *)

(** A seed that resolves to nothing or to blanks leaves a window that never
    fires. *)
Lemma main_unseeded w a base b rs evs :
  strip (or_else (_resolve_seed_from_args_env w a).2 []) = [] →
  let u' := run b rs evs (main w a base) in
  _seed_text (main w a base) = Some []
  ∧ _pending_welcome_seed u' = _pending_welcome_seed base
  ∧ fired u' = fired base
  ∧ threads u' = threads base.
Proof.
  intros He u'.
  destruct (init_fields builtin_int (_resolve_seed_from_args_env w a).2
              (show_seed a) (PyInt (seed_delay a)) base)
    as (_ & Ht & _ & _ & Hp & Hf & Hth).
  fold (main w a base) in Ht, Hp, Hf, Hth. rewrite He in Ht, Hp.
  simpl in Hp.
  assert (Hu : truthy (_seed_text (main w a base)) = false)
    by (rewrite Ht; reflexivity).
  destruct (run_unseeded b rs evs _ Hu) as (_ & Hp' & Hf' & Hth').
  fold u' in Hp', Hf', Hth'. repeat split; congruence.
Qed.

(** X9. With [--skip-seed] on the command line the window never seeds,
    whatever the other flags, the files and the environment hold and
    whatever happens to the window: the stored seed text is empty, the
    pending flag stays as the base constructor left it, the readiness check
    never reaches [_start_seeding] and no worker is started. *)
Theorem skip_seed_window_never_fires (w : World) (a : Args) (base : UI)
    (b : option (M unit)) (rs : pystr → list pystr * option exn)
    (evs : list event) :
  skip_seed a = true →
  let u' := run b rs evs (main w a base) in
  _seed_text (main w a base) = Some []
  ∧ _pending_welcome_seed u' = _pending_welcome_seed base
  ∧ fired u' = fired base
  ∧ threads u' = threads base.
Proof.
  intros Hs. apply main_unseeded. rewrite (resolve_skip w a Hs). reflexivity.
Qed.

Lemma skip_seed_window_never_fires_witness :
  fired (run (Some (_start_seeding true)) failing_backend
           [Elapse 50; Dismiss; Tick; Tick; Recheck]
           (main all_sources (all_flags true) fresh)) = 0%nat.
Proof.
  apply (skip_seed_window_never_fires all_sources (all_flags true) fresh
           (Some (_start_seeding true)) failing_backend
           [Elapse 50; Dismiss; Tick; Tick; Recheck] eq_refl).
Defined.

(** X10. A seed file that exists but holds nothing except whitespace
    silences the seeding: the resolver returns its content without looking
    at the environment variable, even when that one is set, and the window
    built from it never fires. *)
Theorem blank_seed_file_silences_env (w : World) (a : Args) (p txt : pystr)
    (base : UI) (b : option (M unit))
    (rs : pystr → list pystr * option exn) (evs : list event) :
  skip_seed a = false → truthy (seed_prompt a) = false →
  seed_file a = Some p → p ≠ [] → fs w !! p = Some (Entry (Ok txt)) →
  strip txt = [] →
  (∀ env, _resolve_seed_from_args_env (with_environ env w) a
          = ([], Some txt))
  ∧ let u' := run b rs evs (main w a base) in
    _pending_welcome_seed u' = _pending_welcome_seed base
    ∧ fired u' = fired base
    ∧ threads u' = threads base.
Proof.
  intros Hs Hp Hf Hn Hfs Hb. split.
  - intros env. apply (resolve_file (with_environ env w) a p txt); assumption.
  - cbv zeta. eapply proj2, main_unseeded.
    rewrite (resolve_file w a p txt Hs Hp Hf Hn Hfs). simpl.
    destruct txt as [|c txt]; [reflexivity | exact Hb].
Qed.

Lemma blank_seed_file_silences_env_witness :
  (_resolve_seed_from_args_env blank_file_world (file_flag (py "seed.txt"))).2
  = Some (py "  " ++ LF)
  ∧ fired (run None failing_backend [Elapse 50; Dismiss; Tick; Tick]
             (main blank_file_world (file_flag (py "seed.txt")) fresh))
    = 0%nat.
Proof.
  destruct (blank_seed_file_silences_env blank_file_world
              (file_flag (py "seed.txt")) (py "seed.txt") (py "  " ++ LF)
              fresh None failing_backend [Elapse 50; Dismiss; Tick; Tick])
    as (Hr & _ & Hfired & _); try reflexivity; [discriminate|].
  split; [|exact Hfired].
  exact (f_equal snd (Hr (environ blank_file_world))).
Defined.

(* ===================================================================== *)
(** * Proofs: what a piece of code keeps *)
(* ===================================================================== *)

Section Keeping.

Variable R : UI → UI → Prop.
Hypothesis R_refl : ∀ u, R u u.
Hypothesis R_trans : ∀ u1 u2 u3, R u1 u2 → R u2 u3 → R u1 u3.

Lemma Keeps_ret {A} (a : A) : Keeps R (ret a).
Proof. intros u. apply R_refl. Qed.

Lemma Keeps_raise {A} e : Keeps R (@raise A e).
Proof. intros u. apply R_refl. Qed.

Lemma Keeps_self : Keeps R self.
Proof. intros u. apply R_refl. Qed.

Lemma Keeps_bind {A B} (m : M A) (k : A → M B) :
  Keeps R m → (∀ a, Keeps R (k a)) → Keeps R (bind m k).
Proof.
  intros Hm Hk u. unfold bind. specialize (Hm u).
  destruct (m u) as [u' [a|e]]; simpl in *; [|exact Hm].
  eapply R_trans; [exact Hm | apply Hk].
Qed.

Lemma Keeps_try_except {A} (m : M A) (h : exn → M A) :
  Keeps R m → (∀ e, Keeps R (h e)) → Keeps R (try_except m h).
Proof.
  intros Hm Hh u. unfold try_except. specialize (Hm u).
  destruct (m u) as [u' [a|e]]; simpl in *; [exact Hm|].
  eapply R_trans; [exact Hm | apply Hh].
Qed.

Lemma Keeps_try_finally {A} (m : M A) (f : M unit) :
  Keeps R m → Keeps R f → Keeps R (try_finally m f).
Proof.
  intros Hm Hf u. unfold try_finally. specialize (Hm u).
  destruct (m u) as [u' r]. specialize (Hf u').
  destruct (f u') as [u'' [[]|e]]; simpl in *; eapply R_trans; eauto.
Qed.

Lemma Keeps_stream toks fin (on_token : pystr → M unit) :
  (∀ tok, Keeps R (on_token tok)) → Keeps R (stream toks fin on_token).
Proof.
  intros H. induction toks as [|tok toks IH]; simpl.
  - destruct fin; [apply Keeps_raise | apply Keeps_ret].
  - apply Keeps_bind; [apply H | intros _; exact IH].
Qed.

(** [_seed_worker] keeps whatever [after] and the binding and unbinding of
    [e] keep. *)
Lemma Keeps_seed_worker rs frame text :
  (∀ ms cb, cb ≠ try_fire_cb → Keeps R (after ms cb)) →
  (∀ f : UI → gmap nat exn, Keeps R (assign (λ u, set_frames (f u) u))) →
  Keeps R (_seed_worker rs frame text).
Proof.
  intros Hafter Hframes. unfold _seed_worker.
  apply Keeps_try_finally; [|by apply Hafter].
  apply Keeps_try_except.
  - destruct (rs text) as [toks fin]. apply Keeps_stream.
    intros tok. by apply Hafter.
  - intros e. apply Keeps_bind; [apply Hframes|]. intros _.
    apply Keeps_try_finally; [by apply Hafter | apply Hframes].
Qed.

End Keeping.

Lemma only_queued_refl u : only_queued u u.
Proof. repeat split. Qed.

Lemma only_queued_trans u1 u2 u3 :
  only_queued u1 u2 → only_queued u2 u3 → only_queued u1 u3.
Proof.
  unfold only_queued. intros H1 H2.
  repeat match goal with H : _ ∧ _ |- _ => destruct H end.
  repeat split; congruence.
Qed.

(** X11. [_seed_worker] changes nothing on the window but the timer queue
    (and the cell of its own exception): whatever the backend produces and
    whether or not the window is still there, the transcript, the streaming
    flag, the send button, the error boxes, the pending flag, the threads
    and the log are after the worker what they were before. All it does to
    the window is done by the callbacks it queues on the event loop. *)
Theorem seed_worker_only_queues :
  ∀ (rs : pystr → list pystr * option exn) (frame : nat) (text : pystr)
    (u : UI),
  only_queued u (_seed_worker rs frame text u).1.
Proof.
  intros rs frame text.
  apply (Keeps_seed_worker only_queued only_queued_refl only_queued_trans).
  - intros ms cb _ u. unfold after. destruct (alive u); repeat split.
  - intros f u. repeat split.
Qed.

(* ===================================================================== *)
(** * Proofs: nothing fires before the launcher is dismissed *)
(* ===================================================================== *)

Lemma elem_of_insert_timer t x q :
  t ∈ insert_timer x q ↔ t = x ∨ t ∈ q.
Proof.
  induction q as [|y q IH]; simpl.
  - rewrite list_elem_of_singleton, elem_of_nil. tauto.
  - destruct (x.1 <? y.1).
    + rewrite elem_of_cons. tauto.
    + rewrite !elem_of_cons, IH. tauto.
Qed.

Lemma check_free_refl u : check_free u u.
Proof. intros H. exact H. Qed.

Lemma check_free_trans u1 u2 u3 :
  check_free u1 u2 → check_free u2 u3 → check_free u1 u3.
Proof. unfold check_free. auto. Qed.

Lemma check_free_same_timers u u' : timers u' = timers u → check_free u u'.
Proof. unfold check_free, no_check. intros ->. auto. Qed.

Lemma check_free_after ms cb :
  cb ≠ try_fire_cb → Keeps check_free (after ms cb).
Proof.
  intros Hcb u. unfold after. destruct (alive u); [|apply check_free_refl].
  intros Hu t Ht. simpl in Ht. apply elem_of_insert_timer in Ht as [->|Ht];
    [exact Hcb | by apply Hu].
Qed.

Lemma check_free_append text tag : Keeps check_free (_append text tag).
Proof.
  intros u. apply check_free_same_timers. unfold _append.
  destruct (alive u); reflexivity.
Qed.

Lemma check_free_skin : Keeps check_free _skin_legacy_chat_widgets.
Proof.
  intros u. apply check_free_same_timers.
  unfold _skin_legacy_chat_widgets, try_except, assign.
  destruct (alive u); reflexivity.
Qed.

Lemma check_free_err frame : Keeps check_free (err frame).
Proof.
  intros u. apply check_free_same_timers. unfold err. unfold_m.
  destruct (alive u) eqn:Ha; simpl; [|reflexivity].
  destruct (frames u !! frame); simpl; rewrite ?Ha; reflexivity.
Qed.

Lemma check_free_done : Keeps check_free done.
Proof.
  intros u. apply check_free_same_timers. unfold done. unfold_m.
  destruct (alive u) eqn:Ha; simpl; [|reflexivity].
  destruct (send_btn u); simpl; rewrite ?Ha; reflexivity.
Qed.

Lemma check_free_seed_worker rs frame text :
  Keeps check_free (_seed_worker rs frame text).
Proof.
  apply (Keeps_seed_worker check_free check_free_refl check_free_trans).
  - intros ms cb Hcb. by apply check_free_after.
  - intros f u. by apply check_free_same_timers.
Qed.

Lemma no_check_report u (r : UI * result unit) :
  check_free u r.1 → check_free u (report r).
Proof.
  destruct r as [u' [[]|e]]; simpl; [auto|].
  intros H Hu. specialize (H Hu). exact H.
Qed.

(** One passive event, with no readiness check queued. *)
Lemma step_passive b rs ev u :
  no_check u → passive ev →
  same_seeding u (step b rs ev u) ∧ no_check (step b rs ev u).
Proof.
  intros Hu Hev. destruct ev; simpl in Hev; try contradiction; simpl.
  - (* Tick *)
    unfold mainloop_step. destruct (timers u) as [|[due cb] rest] eqn:Hq.
    { split; [apply same_seeding_refl | exact Hu]. }
    assert (Hcb : cb ≠ try_fire_cb).
    { apply (Hu (due, cb)). rewrite Hq. left. }
    set (u1 := set_clock _ _).
    assert (H1 : no_check u1).
    { intros t Ht. simpl in Ht. apply Hu. rewrite Hq. by right. }
    assert (S1 : same_seeding u u1) by repeat split.
    assert (H : same_seeding u1 (run_callback b cb u1).1
                ∧ check_free u1 (run_callback b cb u1).1).
    { destruct cb; simpl; try congruence.
      - split; [apply Quiet_skin | apply check_free_skin].
      - split; [apply Quiet_append | apply check_free_append].
      - split; [apply Quiet_err | apply check_free_err].
      - split; [apply Quiet_done | apply check_free_done]. }
    destruct H as [Hs Hc]. split.
    + apply same_seeding_report.
      eapply same_seeding_trans; [exact S1 | exact Hs].
    + apply (no_check_report u1 _ Hc H1).
  - split; [repeat split | exact Hu].
  - split; [repeat split | exact Hu].
  - split; [repeat split | exact Hu].
  - destruct (threads u !! frame) as [text|];
      [|split; [apply same_seeding_refl | exact Hu]].
    split.
    + apply same_seeding_report, Quiet_seed_worker.
    + apply (no_check_report u _ (check_free_seed_worker rs frame text u) Hu).
Qed.

(** X12. Nothing fires before the launcher is dismissed. On a window with
    no readiness check queued, no sequence of turns of the event loop,
    passing time, chat generations, reappearing launchers and worker runs
    reaches the call of [_start_seeding], starts a worker, changes the
    pending flag or queues a readiness check: that takes a call of
    [_hide_frontpage] (or a direct readiness check). The constructor queues
    none either. *)
Theorem no_check_before_dismissal :
  ∀ (PyVal : Type) (py_int : PyVal → result Z) (b : option (M unit))
    (rs : pystr → list pystr * option exn) (seed : option pystr)
    (show : bool) (v : PyVal) (base : UI) (evs : list event),
  no_check base → Forall passive evs →
  let u := (__init__ py_int seed show v base).1 in
  let u' := run b rs evs u in
  no_check u ∧ no_check u'
  ∧ fired u' = fired base
  ∧ threads u' = threads base
  ∧ _pending_welcome_seed u' = _pending_welcome_seed u.
Proof.
  intros PyVal py_int b rs seed show v base evs Hbase Hevs u u'.
  assert (Hu : no_check u).
  { subst u. unfold __init__. unfold_m.
    generalize NOTICE_SHOWING, NOTICE_ENABLED, NOTICE_TIP, (py "sys").
    intros n1 n2 n3 sys. crunch.
    destruct (truthy (Some (strip (or_else seed [])))); crunch;
      destruct show; crunch; destruct (alive base) eqn:Ha; crunch;
      rewrite ?Ha; crunch; rewrite ?Ha; crunch;
      intros t Ht; crunch;
      try (apply elem_of_insert_timer in Ht as [->|Ht]; [discriminate|]);
      by apply Hbase. }
  destruct (init_fields py_int seed show v base)
    as (_ & _ & _ & _ & _ & Hf & Hth).
  fold u in Hf, Hth.
  assert (H : same_seeding u u' ∧ no_check u').
  { subst u'. clear Hf Hth. revert Hu. generalize u. clear u.
    induction Hevs as [|ev evs Hev _ IH]; intros u Hu.
    - split; [apply same_seeding_refl | exact Hu].
    - destruct (step_passive b rs ev u Hu Hev) as [Hs Hn].
      destruct (IH _ Hn) as [Hs' Hn'].
      split; [eapply same_seeding_trans; eauto | exact Hn']. }
  destruct H as [(_ & Hp & Hf' & Hth') Hn].
  repeat split; try assumption; congruence.
Qed.

Lemma no_check_before_dismissal_witness :
  fired (run (Some (_start_seeding true)) failing_backend
           [Tick; Elapse 1000; Stream false; Tick; Work 0%nat] hello)
  = 0%nat.
Proof.
  refine (proj1 (proj2 (proj2
    (no_check_before_dismissal pyval builtin_int (Some (_start_seeding true))
       failing_backend (Some (py "Hello")) false (PyInt 250) fresh
       [Tick; Elapse 1000; Stream false; Tick; Work 0%nat] _ _)))).
  - intros t Ht. by apply elem_of_nil in Ht.
  - repeat constructor.
Defined.

(* ===================================================================== *)
(** * Proofs: a stream that ends normally *)
(* ===================================================================== *)

Lemma seed_worker_success rs frame text toks u :
  alive u = true → timers u = [] → rs text = (toks, None) →
  _seed_worker rs frame text u
  = (set_timers
       (at_time (clock u)
          (map (λ tok, append_cb tok (py "bot")) toks ++ [done_cb])) u,
     Ok tt).
Proof.
  intros Ha Hq Hrs. unfold _seed_worker, try_finally, try_except. rewrite Hrs.
  rewrite (stream_enqueues None toks [] u Ha Hq). simpl app.
  set (cbs := map _ toks). set (u1 := set_timers _ _).
  rewrite (after_0_at_time done_cb cbs u1 Ha eq_refl). reflexivity.
Qed.

Section PlainStream.

Variable b : option (M unit).
Variable rs : pystr → list pystr * option exn.
Variable frame : nat.
Variable u0 : UI.
Variable goal : list (pystr * pystr).

Ltac plain_queue q :=
  exists q; split; [|split; [|split]].

Lemma plain_inv_worker_turn c :
  plain_inv frame u0 goal c →
  plain_inv frame u0 goal (worker_step frame c.2 c.1).
Proof.
  destruct c as [u w].
  intros [Ha Hc Hw Hbtn Hlog Hrep Hdia Hfr (q & Hq & Hours & Htr & Hdone)].
  simpl in *. rewrite <- Hc in Hq.
  destruct w as [[|tok rest] fin| e' | | r | r | r]; simpl in Hw;
    try contradiction; try subst fin; try subst r; simpl worker_step.
  - simpl to_come in *. constructor; simpl; try assumption; [reflexivity|].
    rewrite <- Hc. plain_queue q; assumption.
  - rewrite (after_0_at_time _ q u Ha Hq).
    assert (Heq : (q ++ [append_cb tok (py "bot")])
                    ++ to_come frame (Streaming rest None)
                  = q ++ to_come frame (Streaming (tok :: rest) None))
      by (rewrite <- app_assoc; reflexivity).
    simpl to_come in *.
    constructor; simpl; try assumption; [reflexivity|].
    rewrite <- Hc. plain_queue (q ++ [append_cb tok (py "bot")]);
      rewrite ?Heq; try assumption; try reflexivity.
    apply Forall_app. split; [assumption|]. repeat constructor.
  - rewrite (after_0_at_time _ q u Ha Hq).
    assert (Heq : (q ++ [done_cb]) ++ to_come frame (Finished (Ok tt))
                  = q ++ to_come frame (Closing (Ok tt)))
      by (rewrite <- app_assoc; reflexivity).
    simpl to_come in *.
    constructor; simpl; try assumption; [reflexivity|].
    rewrite <- Hc. plain_queue (q ++ [done_cb]);
      rewrite ?Heq; try assumption; try reflexivity.
    apply Forall_app. split; [assumption|]. repeat constructor.
  - simpl to_come in *. constructor; simpl; try assumption; [reflexivity|].
    rewrite <- Hc. plain_queue q; assumption.
Qed.

Lemma plain_inv_loop_turn c :
  plain_inv frame u0 goal c →
  plain_inv frame u0 goal (mainloop_step b c.1, c.2).
Proof.
  destruct c as [u w].
  intros [Ha Hc Hw Hbtn Hlog Hrep Hdia Hfr (q & Hq & Hours & Htr & Hdone)].
  simpl in *. rewrite <- Hc in Hq.
  change (mainloop_step b u) with (step b rs Tick u).
  destruct q as [|cb q].
  - simpl. unfold mainloop_step. rewrite Hq. simpl.
    constructor; simpl; try assumption.
    rewrite <- Hc. plain_queue (@nil callback); assumption.
  - apply Forall_cons in Hours as [Hcb Hours].
    destruct cb as [| |text tag|f|]; simpl in Hcb; try contradiction.
    + rewrite (tick_append b rs text tag (at_time (clock u) q) u Ha Hq).
      constructor; simpl; try assumption.
      rewrite <- Hc. plain_queue q; try assumption; try reflexivity.
      rewrite <- app_assoc. exact Htr.
    + destruct Hbtn as [old Hold].
      rewrite (tick_done b rs old (at_time (clock u) q) u Ha Hq Hold).
      constructor; simpl; try assumption; [eauto|].
      rewrite <- Hc. plain_queue q; try assumption; try reflexivity.
      * rewrite <- app_assoc. exact Htr.
      * intros _. split; reflexivity.
Qed.

Lemma plain_inv_interleave sched : ∀ c,
  plain_inv frame u0 goal c →
  plain_inv frame u0 goal (interleave b frame sched c).
Proof.
  induction sched as [|t sched IH]; intros c H; [exact H|].
  apply IH. destruct t; [apply plain_inv_worker_turn | apply plain_inv_loop_turn];
    exact H.
Qed.

End PlainStream.

Lemma entries_plain_stream frame toks :
  entries (to_come frame (Streaming toks None))
  = bot_tokens toks ++ [(LF, py "bot")].
Proof. simpl. rewrite entries_app, entries_tokens. reflexivity. Qed.

(** X13. When the backend's stream ends normally, the worker and the event
    loop leave the transcript with the tokens in the order they were
    produced and one line feed after them, the streaming flag false and the
    send button enabled; no error notice is appended, no box is shown and
    nothing is logged or reported. This is so when the worker runs to its
    end before the event loop turns, and under every other interleaving of
    the two, once the worker is over and the queue is empty. *)
Theorem worker_success_completes
    (b : option (M unit)) (rs : pystr → list pystr * option exn)
    (frame : nat) (text : pystr) (toks : list pystr) (old : btn_state)
    (u : UI) :
  alive u = true → timers u = [] → send_btn u = Some old →
  rs text = (toks, None) →
  (let r := _seed_worker rs frame text u in
   let u' := run b rs (drain r.1) r.1 in
   r.2 = Ok tt
   ∧ transcript u' = transcript u ++ bot_tokens toks ++ [(LF, py "bot")]
   ∧ streaming u' = Some false
   ∧ send_btn u' = Some normal
   ∧ dialogs u' = dialogs u ∧ log u' = log u ∧ reported u' = reported u
   ∧ timers u' = [])
  ∧ (∀ sched,
       let c := interleave b frame sched (u, worker_start rs text) in
       (∃ r, c.2 = Finished r) → timers c.1 = [] →
       c.2 = Finished (Ok tt)
       ∧ transcript c.1 = transcript u ++ bot_tokens toks ++ [(LF, py "bot")]
       ∧ streaming c.1 = Some false
       ∧ send_btn c.1 = Some normal
       ∧ dialogs c.1 = dialogs u ∧ log c.1 = log u
       ∧ reported c.1 = reported u).
Proof.
  intros Ha Hq Hb Hrs. split.
  - cbv zeta. rewrite (seed_worker_success rs frame text toks u Ha Hq Hrs).
    cbn [fst snd]. set (u1 := set_timers _ _).
    split; [reflexivity|].
    assert (Hd : drain u1 = ticks (length toks) ++ [Tick]).
    { unfold drain, u1, at_time, ticks. cbn [timers set_timers].
      rewrite length_map, length_app, length_map. simpl.
      rewrite replicate_add. reflexivity. }
    rewrite Hd, run_app.
    rewrite (ticks_append_all b rs toks [(clock u, done_cb)] u1 Ha);
      [|unfold u1, at_time; cbn [timers set_timers clock];
        rewrite map_app; reflexivity].
    set (u2 := set_timers _ _).
    change (run b rs [Tick] u2) with (step b rs Tick u2).
    rewrite (tick_done b rs old [] u2 Ha eq_refl Hb).
    cbn. rewrite <- !app_assoc. repeat split.
  - intros sched. cbv zeta. unfold worker_start. rewrite Hrs.
    intros [r Hr] Hempty.
    assert (H0 : plain_inv frame u
                   (transcript u ++ bot_tokens toks ++ [(LF, py "bot")])
                   (u, Streaming toks None)).
    { constructor; simpl; try reflexivity; try assumption; [eauto|].
      exists (@nil callback). split; [|split; [|split]].
      - rewrite Hq. reflexivity.
      - constructor.
      - simpl. rewrite entries_app, entries_tokens. reflexivity.
      - simpl. rewrite existsb_app. simpl. rewrite orb_true_r. discriminate. }
    apply (plain_inv_interleave b rs frame u _ sched) in H0.
    destruct H0 as [_ _ Hw _ Hlog Hrep Hdia _ (q & Hq' & _ & Htr & Hdone)].
    rewrite Hr in *. simpl in Hw. subst r.
    rewrite Hempty in Hq'. destruct q as [|cb q]; [|discriminate].
    simpl in *. rewrite app_nil_r in Htr.
    destruct (Hdone eq_refl) as [Hs Hbn].
    repeat split; assumption.
Qed.

Lemma worker_success_completes_witness :
  let seeding := Some (_start_seeding true) in
  let u := run seeding good_backend [Tick] (hello_dismissed seeding) in
  let r := _seed_worker good_backend 0 (py "Hello") u in
  transcript (run seeding good_backend (drain r.1) r.1)
  = transcript u ++ [(py "Hel", py "bot"); (py "lo", py "bot");
                     (LF, py "bot")].
Proof.
  intros seeding u r.
  destruct (worker_success_completes seeding good_backend 0%nat (py "Hello")
              [py "Hel"; py "lo"] disabled u
              eq_refl eq_refl eq_refl eq_refl)
    as ((_ & H & _) & _).
  exact H.
Defined.

(* ===================================================================== *)
(** * Proofs: more on firing *)
(* ===================================================================== *)

Lemma start_seeding_leaves_pending bw : leaves_pending (Some (_start_seeding bw)).
Proof.
  intros m [= <-] v. unfold _start_seeding, thread_start. unfold_m.
  destruct (flag (streaming v) || negb (truthy (_seed_text v)));
    [reflexivity|].
  destruct (alive v) eqn:Ha; [|reflexivity]. crunch.
  destruct (send_btn v) eqn:Hb; crunch; rewrite ?Ha; crunch;
    destruct bw; crunch; try reflexivity;
    destruct (spawnable v); reflexivity.
Qed.

Lemma rechecks_unarmed b rs n u :
  armed u = false → run b rs (replicate n Recheck) u = u.
Proof.
  intros Hu. induction n as [|n IH]; [reflexivity|].
  change (run b rs (replicate (S n) Recheck) u)
    with (run b rs (replicate n Recheck) (step b rs Recheck u)).
  simpl step. rewrite (try_fire_unarmed b u Hu). exact IH.
Qed.

(** X14. A readiness check that fires disarms the seed: whatever
    [_start_seeding] is bound to, as long as it leaves the pending flag
    alone, the window after the firing is no longer armed, and any number of
    further readiness checks (those queued by earlier dismissals, say)
    return without changing anything. *)
Theorem checks_after_firing_do_nothing (b : option (M unit))
    (rs : pystr → list pystr * option exn) (n : nat) (u : UI) :
  leaves_pending b → armed u = true → blocked u = false →
  let u1 := (_try_fire_welcome_seed b u).1 in
  _pending_welcome_seed u1 = Some false
  ∧ armed u1 = false
  ∧ _try_fire_welcome_seed b u1 = (u1, Ok tt)
  ∧ run b rs (replicate n Recheck) u1 = u1.
Proof.
  intros Hb Ha Hbl u1.
  assert (Hp : _pending_welcome_seed u1 = Some false).
  { subst u1. rewrite (try_fire_ready b u Ha Hbl). unfold call_start_seeding.
    destruct b as [m|]; [|reflexivity]. rewrite (Hb m eq_refl). reflexivity. }
  assert (Hu : armed u1 = false).
  { unfold armed. rewrite Hp. apply andb_false_r. }
  split; [exact Hp|]. split; [exact Hu|].
  split; [by apply try_fire_unarmed | by apply rechecks_unarmed].
Qed.

Lemma checks_after_firing_do_nothing_witness :
  let seeding := Some (_start_seeding true) in
  threads (run seeding failing_backend (replicate 3 Recheck)
             (_try_fire_welcome_seed seeding hello_ready).1)
  = [py "Hello"].
Proof.
  intros seeding.
  destruct (checks_after_firing_do_nothing seeding failing_backend 3
              hello_ready (start_seeding_leaves_pending true)
              eq_refl eq_refl) as (_ & _ & _ & ->).
  reflexivity.
Defined.

Lemma start_seeding_guarded bw v :
  flag (streaming v) = true → _start_seeding bw v = (v, Ok tt).
Proof. intros H. unfold _start_seeding. unfold_m. rewrite H. reflexivity. Qed.

Lemma start_seeding_cases bw u :
  (_start_seeding bw u).1 = u ∨ streaming (_start_seeding bw u).1 = Some true.
Proof.
  unfold _start_seeding, thread_start. unfold_m.
  destruct (flag (streaming u) || negb (truthy (_seed_text u)));
    [left; reflexivity|].
  destruct (alive u) eqn:Ha; [|left; reflexivity]. crunch. right.
  destruct (send_btn u) eqn:Hb; crunch; rewrite ?Ha; crunch;
    destruct bw; crunch; try reflexivity;
    destruct (spawnable u); reflexivity.
Qed.

(** X15. [_start_seeding] called twice in a row does what one call does:
    the second call returns without touching the window, so no second bot
    marker is appended and no second worker is started while the first
    generation is under way. *)
Theorem start_seeding_twice_is_once :
  ∀ (bw : bool) (u : UI),
  let u1 := (_start_seeding bw u).1 in
  _start_seeding bw u1 = (u1, Ok tt).
Proof.
  intros bw u. cbv zeta.
  destruct (start_seeding_cases bw u) as [H|H].
  - rewrite H. destruct (start_seeding_swallows bw u) as (Hr & _).
    destruct (_start_seeding bw u) as [x r]. simpl in *. congruence.
  - apply start_seeding_guarded. rewrite H. reflexivity.
Qed.

(** X16. An overlay that cannot be asked counts as hidden: when
    [winfo_manager()] raises, or there is no overlay at all, an armed
    readiness check on a window that is not streaming goes on to fire. *)
Theorem unreadable_overlay_counts_as_hidden (b : option (M unit)) (u : UI) :
  (_frontpage u = None ∨ ∃ e, _frontpage u = Some (Broken e)) →
  armed u = true → flag (streaming u) = false →
  overlay_active u = (u, Ok false)
  ∧ _try_fire_welcome_seed b u
    = call_start_seeding b
        (set_fired (S (fired u)) (set_pending_welcome_seed (Some false) u)).
Proof.
  intros Hf Ha Hs.
  assert (Hv : overlay_visible u = false).
  { unfold overlay_visible. destruct Hf as [-> | [e ->]]; reflexivity. }
  split; [by rewrite overlay_active_eq, Hv|].
  apply try_fire_ready; [exact Ha|]. unfold blocked. by rewrite Hv, Hs.
Qed.

Lemma unreadable_overlay_counts_as_hidden_witness :
  fired (_try_fire_welcome_seed None hello_broken).1 = 1%nat.
Proof.
  destruct (unreadable_overlay_counts_as_hidden None hello_broken)
    as (_ & ->); [right; eexists; reflexivity | reflexivity | reflexivity |].
  reflexivity.
Defined.

(* ===================================================================== *)
(** * Proofs: theming *)
(* ===================================================================== *)




(* ===================================================================== *)
(** * Proofs: building the launcher *)
(* ===================================================================== *)

(** X18. [_build_frontpage] on a live window puts up an overlay that reports
    itself as mounted, so that a readiness check can only put itself off
    until the launcher is dismissed; the new tree lists the store's names in
    order, with a mapping that matches its rows; and the Listbox of the base
    class is out of use, so that the selection is read from the tree. *)
Theorem build_frontpage_shows_store_and_blocks :
  ∀ (super_refresh : Launcher → Launcher * result unit)
    (b : option (M unit)) (s : Launcher),
  alive (win s) = true →
  let r := _build_frontpage super_refresh s in
  r.2 = Ok tt
  ∧ blocked (win r.1) = true
  ∧ _try_fire_welcome_seed b (win r.1) = (recheck_later (win r.1), Ok tt)
  ∧ _frontpage_list r.1 = None
  ∧ ∃ t', _frontpage_tree r.1 = Some t'
      ∧ row_names t' = list_names (program_store s)
      ∧ selection t' = []
      ∧ mapping_matches t' (_fp_mapping r.1).
Proof.
  intros super_refresh b s Ha r. subst r. unfold _build_frontpage.
  rewrite Ha. set (s1 := set_empty_label _ _).
  assert (Ha1 : alive (win s1) = true) by exact Ha.
  destruct (refresh_tree_result super_refresh s1 new_tree eq_refl Ha1)
    as (Hok & Hw & _ & _ & _ & t' & Ht' & Hr & Hsel & _ & Hm).
  cbv zeta in *.
  destruct (numbered_rows_listing _ _ _ _ _ Hr Hm) as (Hn & _ & Hmm).
  assert (Hb : blocked (win (_refresh_frontpage_list super_refresh s1).1)
               = true) by (rewrite Hw; reflexivity).
  split; [exact Hok|]. split; [exact Hb|].
  split; [by apply try_fire_blocked|]. split.
  - unfold _refresh_frontpage_list. simpl. rewrite Ha.
    destruct (fill_rows _ _ _). reflexivity.
  - exists t'. split; [exact Ht'|]. split; [exact Hn|].
    split; [exact Hsel | exact Hmm].
Qed.

Lemma build_frontpage_shows_store_and_blocks_witness :
  blocked (win (_build_frontpage no_refresh stale_launcher).1) = true.
Proof.
  refine (proj1 (proj2
    (build_frontpage_shows_store_and_blocks no_refresh None stale_launcher
       _))).
  reflexivity.
Defined.
